(** * Archon: multi-dimensional vector storage and similarity search

    A shallow embedding of [database/migrations/complete_setup.sql]:
    the [documents] and [code_examples] tables with their four typed
    embedding columns, the vector indexes, and the PL/pgSQL functions
    [detect_embedding_dimension], [get_embedding_column_name],
    [search_similar_documents] and [search_similar_code_examples];
    further the settings table with its default configuration (also of
    [00_base_schema.sql]), the foreign keys of [sources], [projects] and
    [tasks], the ALTER TABLE statements of
    [migration/add_multi_dimensional_vectors.sql], and the set-primary
    handler of the Ollama configuration panel.

    Modelling conventions.
    - SQL NULL is [None]; a nullable column or expression has an [option]
      type, and comparisons follow SQL's three-valued logic.
    - [float4]/[float8] values are idealised as rationals ([Q]); NaN and
      rounding are outside the model.
    - A [uuid] is its 128-bit value read as an unsigned number, which is
      the order PostgreSQL compares uuids in.
    - pgvector's cosine distance operator [<=>] is not code of this
      repository: it is a parameter [cosine_distance] of the development.
      (The operator raises on operands of different dimensions; the typed
      columns rule that case out for the queries built here.)
    - A table is the list of its rows in scan order.  The query has one
      sort key, so PostgreSQL leaves the order of rows with equal keys to
      the executor; the model keeps them in scan order (a stable sort).
    - A search is the result its query defines, the one a sequential scan
      computes; an ivfflat index scan may return fewer rows.  What is
      stated of every returned row holds of any part of that result;
      what is stated of the whole result (no match left out, the exact
      rows) is stated for the bucket without index, 3072, or relates two
      searches of the same table.
    - Function arguments are non-NULL values. *)

From Stdlib Require Import ZArith QArith Lqa List String Ascii Bool Lia.
From Stdlib Require Import Permutation Sorted DecimalString DecimalZ.
Import ListNotations.

Local Open Scope string_scope.
Local Open Scope list_scope.
Local Open Scope Z_scope.

(** ** Values and errors *)

Definition uuid := N.
Bind Scope N_scope with uuid.

(** A pgvector value: the sequence of its elements. *)
Definition vector := list Q.

(** [vector_dims v]: the number of elements, as a SQL integer. *)
Definition vector_dims (v : vector) : Z := Z.of_nat (List.length v).

Inductive pg_error : Type :=
| UnsupportedDimension (dimension : option Z)
    (* RAISE EXCEPTION 'Unsupported embedding dimension: %', dimension *)
| UndefinedColumn (column : string)
    (* 42703: column "..." does not exist *)
| InvalidRowCountInLimit
    (* 2201W: LIMIT must not be negative *)
| VectorTypmodMismatch (expected actual : Z)
    (* 22000: expected %d dimensions, not %d *)
| UniqueViolation (key : uuid)
    (* 23505: duplicate key value violates the primary key *).

Inductive pg_result (A : Type) : Type :=
| Ok (a : A)
| Error (e : pg_error).
Arguments Ok {A} a.
Arguments Error {A} e.

Definition bind {A B : Type} (m : pg_result A) (k : A -> pg_result B)
  : pg_result B :=
  match m with
  | Ok a => k a
  | Error e => Error e
  end.

Definition result_map {A B : Type} (f : A -> B) (m : pg_result A)
  : pg_result B :=
  bind m (fun a => Ok (f a)).

Notation "x <- m ;; k" := (bind m (fun x => k))
  (at level 61, m at next level, right associativity).

(** ** The tables (lines 48-63 and 70-88) *)

Record document : Type := {
  doc_id : uuid;
  doc_source_id : option uuid;
  doc_url : string;
  doc_title : option string;
  doc_content : string;
  doc_content_length : option Z;
  doc_chunk_index : option Z;
  doc_embedding_768 : option vector;
  doc_embedding_1024 : option vector;
  doc_embedding_1536 : option vector;
  doc_embedding_3072 : option vector;
  doc_metadata : option string;
  doc_created_at : option Z;
  doc_updated_at : option Z
}.

Record code_example : Type := {
  code_row_id : uuid;
  code_source_id : option uuid;
  code_language : option string;
  code_framework : option string;
  code_file_path : option string;
  code_function_name : option string;
  code_class_name : option string;
  code_code_snippet : string;
  code_description : option string;
  code_complexity_level : option string;
  code_embedding_768 : option vector;
  code_embedding_1024 : option vector;
  code_embedding_1536 : option vector;
  code_embedding_3072 : option vector;
  code_metadata : option string;
  code_created_at : option Z;
  code_updated_at : option Z
}.

(** The vector columns of each table, by name.  Name resolution of the
    dynamically built query goes through these: [None] is PostgreSQL's
    "column does not exist". *)
Definition documents_vector_column (name : string)
  : option (document -> option vector) :=
  if String.eqb name "embedding_768" then Some doc_embedding_768
  else if String.eqb name "embedding_1024" then Some doc_embedding_1024
  else if String.eqb name "embedding_1536" then Some doc_embedding_1536
  else if String.eqb name "embedding_3072" then Some doc_embedding_3072
  else None.

Definition code_examples_vector_column (name : string)
  : option (code_example -> option vector) :=
  if String.eqb name "embedding_768" then Some code_embedding_768
  else if String.eqb name "embedding_1024" then Some code_embedding_1024
  else if String.eqb name "embedding_1536" then Some code_embedding_1536
  else if String.eqb name "embedding_3072" then Some code_embedding_3072
  else None.

(** *** Column typing: [vector(n)]

    Storing a value into a [vector(n)] column checks its dimension
    against the type modifier; NULL is stored as it is. *)
Definition vector_typmod (n : Z) (v : option vector) : pg_result unit :=
  match v with
  | None => Ok tt
  | Some x =>
      if vector_dims x =? n then Ok tt
      else Error (VectorTypmodMismatch n (vector_dims x))
  end.

Definition check_document (r : document) : pg_result unit :=
  _ <- vector_typmod 768 (doc_embedding_768 r) ;;
  _ <- vector_typmod 1024 (doc_embedding_1024 r) ;;
  _ <- vector_typmod 1536 (doc_embedding_1536 r) ;;
  vector_typmod 3072 (doc_embedding_3072 r).

Definition check_code_example (r : code_example) : pg_result unit :=
  _ <- vector_typmod 768 (code_embedding_768 r) ;;
  _ <- vector_typmod 1024 (code_embedding_1024 r) ;;
  _ <- vector_typmod 1536 (code_embedding_1536 r) ;;
  vector_typmod 3072 (code_embedding_3072 r).

(** *** Writes

    The statements that change a table: INSERT (the row goes to the end
    of the scan order), UPDATE of the row with a given key (kept in
    place), DELETE.  INSERT and UPDATE coerce the new row to the column
    types and keep [id] a primary key. *)
Section Writes.
Context {row : Type}.
Variable row_id : row -> uuid.
Variable check_row : row -> pg_result unit.

Inductive dml : Type :=
| Insert (r : row)
| Update (key : uuid) (r : row)
| Delete (key : uuid).

Definition has_key (tbl : list row) (k : uuid) : bool :=
  existsb (fun r => N.eqb (row_id r) k) tbl.

Definition exec_dml (tbl : list row) (s : dml) : pg_result (list row) :=
  match s with
  | Insert r =>
      _ <- check_row r ;;
      if has_key tbl (row_id r) then Error (UniqueViolation (row_id r))
      else Ok (tbl ++ [r])
  | Update k r =>
      _ <- check_row r ;;
      if has_key tbl k && negb (N.eqb (row_id r) k)
         && has_key tbl (row_id r)
      then Error (UniqueViolation (row_id r))
      else Ok (map (fun old => if N.eqb (row_id old) k then r else old) tbl)
  | Delete k =>
      Ok (filter (fun r => negb (N.eqb (row_id r) k)) tbl)
  end.

(** A script of writes against an initially empty table; the first
    failing statement aborts it. *)
Fixpoint exec_script (tbl : list row) (script : list dml)
  : pg_result (list row) :=
  match script with
  | [] => Ok tbl
  | s :: rest => tbl' <- exec_dml tbl s ;; exec_script tbl' rest
  end.
End Writes.

Arguments dml : clear implicits.

(** What the writes maintain: [id] is a key, and every row has passed the
    column type checks. *)
Definition table_keys {row : Type} (row_id : row -> uuid) (tbl : list row)
  : list uuid :=
  map row_id tbl.

Definition table_valid {row : Type} (row_id : row -> uuid)
    (check_row : row -> pg_result unit) (tbl : list row) : Prop :=
  NoDup (table_keys row_id tbl)
  /\ Forall (fun r => check_row r = Ok tt) tbl.

Definition documents_after (script : list (dml document))
  : pg_result (list document) :=
  exec_script doc_id check_document [] script.

Definition code_examples_after (script : list (dml code_example))
  : pg_result (list code_example) :=
  exec_script code_row_id check_code_example [] script.

Record database : Type := {
  documents : list document;
  code_examples : list code_example
}.

(** ** Indexes (lines 31-163)

    Every CREATE INDEX statement of the setup script. *)

Inductive access_method : Type := btree | ivfflat.

Record index_decl : Type := {
  index_name : string;
  index_table : string;
  index_method : access_method;
  index_column : string;
  index_opclass : option string;
  index_lists : option Z
}.

Definition btree_index (name tbl col : string) : index_decl :=
  {| index_name := name; index_table := tbl; index_method := btree;
     index_column := col; index_opclass := None; index_lists := None |}.

Definition ivfflat_cosine_index (name tbl col : string) (lists : Z)
  : index_decl :=
  {| index_name := name; index_table := tbl; index_method := ivfflat;
     index_column := col; index_opclass := Some "vector_cosine_ops";
     index_lists := Some lists |}.

Definition indexes : list index_decl :=
  [ btree_index "idx_archon_settings_category" "archon_settings" "category";
    btree_index "idx_documents_source_id" "documents" "source_id";
    btree_index "idx_documents_url" "documents" "url";
    btree_index "idx_code_examples_source_id" "code_examples" "source_id";
    btree_index "idx_code_examples_language" "code_examples" "language";
    btree_index "idx_tasks_project_id" "tasks" "project_id";
    btree_index "idx_tasks_status" "tasks" "status";
    btree_index "idx_tasks_parent_task_id" "tasks" "parent_task_id";
    ivfflat_cosine_index "idx_documents_embedding_768"
      "documents" "embedding_768" 100;
    ivfflat_cosine_index "idx_documents_embedding_1024"
      "documents" "embedding_1024" 100;
    ivfflat_cosine_index "idx_documents_embedding_1536"
      "documents" "embedding_1536" 100;
    ivfflat_cosine_index "idx_code_examples_embedding_768"
      "code_examples" "embedding_768" 100;
    ivfflat_cosine_index "idx_code_examples_embedding_1024"
      "code_examples" "embedding_1024" 100;
    ivfflat_cosine_index "idx_code_examples_embedding_1536"
      "code_examples" "embedding_1536" 100 ].

(** "3072 dimensions exceed pgvector's 2000 dimension index limit"
    (lines 148 and 165). *)
Definition max_index_dimension : Z := 2000.

(** The dimensions the setup script provisions a column for; also the
    value of the SUPPORTED_EMBEDDING_DIMENSIONS setting (line 293). *)
Definition supported_dimensions : list Z := [768; 1024; 1536; 3072].

Definition is_supported (d : Z) : bool :=
  existsb (Z.eqb d) supported_dimensions.

(** ** Utility functions (lines 173-192) *)

(** [array_length(a, 1)]: NULL for an array without elements. *)
Definition array_length (a : vector) : option Z :=
  match a with
  | [] => None
  | _ :: _ => Some (vector_dims a)
  end.

Definition detect_embedding_dimension (embedding_vector : vector)
  : option Z :=
  array_length embedding_vector.

(** The test of a simple CASE: [dimension = n], which NULL never
    satisfies. *)
Definition case_when (dimension : option Z) (n : Z) : bool :=
  match dimension with
  | Some d => d =? n
  | None => false
  end.

Definition get_embedding_column_name (dimension : option Z)
  : pg_result string :=
  if case_when dimension 768 then Ok "embedding_768"
  else if case_when dimension 1024 then Ok "embedding_1024"
  else if case_when dimension 1536 then Ok "embedding_1536"
  else if case_when dimension 3072 then Ok "embedding_3072"
  else Error (UnsupportedDimension dimension).

(** ** The dynamic query (lines 215-228 and 258-273) *)

(** [format]'s [%s] of an integer argument: its decimal text, and the
    empty string for NULL. *)
Definition format_s (arg : option Z) : string :=
  match arg with
  | None => ""
  | Some z => NilZero.string_of_int (Z.to_int z)
  end.

(** The query text, by its four [embedding_%s] holes in the order of the
    text: the score of the select list, the IS NOT NULL test, the
    threshold test, the sort key. *)
Record similarity_query : Type := {
  score_column : string;
  notnull_column : string;
  filter_column : string;
  order_column : string
}.

Definition format_similarity_query (a1 a2 a3 a4 : option Z)
  : similarity_query :=
  {| score_column := String.append "embedding_" (format_s a1);
     notnull_column := String.append "embedding_" (format_s a2);
     filter_column := String.append "embedding_" (format_s a3);
     order_column := String.append "embedding_" (format_s a4) |}.

(** *** SQL expressions *)

Definition is_not_null {A : Type} (a : option A) : option bool :=
  match a with
  | Some _ => Some true
  | None => Some false
  end.

Definition sql_and (a b : option bool) : option bool :=
  match a, b with
  | Some false, _ => Some false
  | _, Some false => Some false
  | Some true, Some true => Some true
  | _, _ => None
  end.

(** [a >= b] *)
Definition sql_ge (a b : option Q) : option bool :=
  match a, b with
  | Some x, Some y => Some (Qle_bool y x)
  | _, _ => None
  end.

(** [1 - a] *)
Definition one_minus (a : option Q) : option Q :=
  option_map (fun x => (1 - x)%Q) a.

(** A WHERE clause keeps a row when its condition is true, not when it is
    false or NULL. *)
Definition is_true (c : option bool) : bool :=
  match c with
  | Some true => true
  | _ => false
  end.

(** *** ORDER BY ... ASC: ascending, NULLs last, ties in input order *)

Definition key_le (a b : option Q) : bool :=
  match a, b with
  | Some x, Some y => Qle_bool x y
  | _, None => true
  | None, Some _ => false
  end.

Fixpoint insert_by {A : Type} (key : A -> option Q) (x : A) (l : list A)
  : list A :=
  match l with
  | [] => [x]
  | y :: rest =>
      if key_le (key x) (key y) then x :: y :: rest
      else y :: insert_by key x rest
  end.

Fixpoint order_by {A : Type} (key : A -> option Q) (l : list A) : list A :=
  match l with
  | [] => []
  | x :: rest => insert_by key x (order_by key rest)
  end.

Definition key_ordered {A : Type} (key : A -> option Q) (a b : A) : Prop :=
  key_le (key a) (key b) = true.

(** *** EXECUTE query_sql USING query_embedding, threshold, max_results *)

Section Executor.
Variable cosine_distance : vector -> vector -> Q.
Context {row : Type}.
Variable vector_column : string -> option (row -> option vector).

Definition resolve_column (name : string)
  : pg_result (row -> option vector) :=
  match vector_column name with
  | Some col => Ok col
  | None => Error (UndefinedColumn name)
  end.

(** [e <=> $1]; the operator is strict. *)
Definition distance (e : option vector) (q : vector) : option Q :=
  option_map (fun v => cosine_distance v q) e.

Definition execute_similarity_query (tbl : list row)
    (sql : similarity_query) (q : vector) (threshold : Q) (lim : Z)
  : pg_result (list (row * option Q)) :=
  score_col <- resolve_column (score_column sql) ;;
  notnull_col <- resolve_column (notnull_column sql) ;;
  filter_col <- resolve_column (filter_column sql) ;;
  order_col <- resolve_column (order_column sql) ;;
  if lim <? 0 then Error InvalidRowCountInLimit
  else
    let kept :=
      filter (fun r =>
                is_true
                  (sql_and (is_not_null (notnull_col r))
                     (sql_ge (one_minus (distance (filter_col r) q))
                        (Some threshold))))
        tbl in
    let sorted := order_by (fun r => distance (order_col r) q) kept in
    let limited := firstn (Z.to_nat lim) sorted in
    Ok (map (fun r => (r, one_minus (distance (score_col r) q))) limited).
End Executor.

(** ** The search functions (lines 195-278) *)

Record document_match : Type := {
  document_id : uuid;
  title : option string;
  content : string;
  url : string;
  similarity_score : option Q
}.

Record code_match : Type := {
  code_id : uuid;
  language : option string;
  framework : option string;
  function_name : option string;
  code_snippet : string;
  description : option string;
  code_similarity_score : option Q
}.

(** The DEFAULT clauses of the signatures (lines 197-198 and 238-239): a
    call may leave out the threshold and the limit. *)
Inductive argument (A : Type) : Type :=
| Omitted
| Passed (a : A).
Arguments Omitted {A}.
Arguments Passed {A} a.

Definition with_default {A : Type} (d : A) (a : argument A) : A :=
  match a with
  | Omitted => d
  | Passed x => x
  end.

(** The select lists: the columns each function returns for a row, next
    to the row's score. *)
Definition document_select_list (rs : document * option Q)
  : document_match :=
  {| document_id := doc_id (fst rs);
     title := doc_title (fst rs);
     content := doc_content (fst rs);
     url := doc_url (fst rs);
     similarity_score := snd rs |}.

Definition code_example_select_list (rs : code_example * option Q)
  : code_match :=
  {| code_id := code_row_id (fst rs);
     language := code_language (fst rs);
     framework := code_framework (fst rs);
     function_name := code_function_name (fst rs);
     code_snippet := code_code_snippet (fst rs);
     description := code_description (fst rs);
     code_similarity_score := snd rs |}.

Section Search.
Variable cosine_distance : vector -> vector -> Q.

Definition search_similar_documents (db : database)
    (query_embedding : vector) (similarity_threshold : Q)
    (max_results : Z)
  : pg_result (list document_match) :=
  let dimension_size := detect_embedding_dimension query_embedding in
  let query_sql :=
    format_similarity_query
      dimension_size dimension_size dimension_size dimension_size in
  rows <- execute_similarity_query cosine_distance documents_vector_column
            (documents db) query_sql
            query_embedding similarity_threshold max_results ;;
  Ok (map document_select_list rows).

Definition search_similar_code_examples (db : database)
    (query_embedding : vector) (similarity_threshold : Q)
    (max_results : Z)
  : pg_result (list code_match) :=
  let dimension_size := detect_embedding_dimension query_embedding in
  let query_sql :=
    format_similarity_query
      dimension_size dimension_size dimension_size dimension_size in
  rows <- execute_similarity_query cosine_distance
            code_examples_vector_column
            (code_examples db) query_sql
            query_embedding similarity_threshold max_results ;;
  Ok (map code_example_select_list rows).

Definition call_search_similar_documents (db : database)
    (query_embedding : vector) (similarity_threshold : argument Q)
    (max_results : argument Z)
  : pg_result (list document_match) :=
  search_similar_documents db query_embedding
    (with_default (7 # 10)%Q similarity_threshold)
    (with_default 10 max_results).

Definition call_search_similar_code_examples (db : database)
    (query_embedding : vector) (similarity_threshold : argument Q)
    (max_results : argument Z)
  : pg_result (list code_match) :=
  search_similar_code_examples db query_embedding
    (with_default (7 # 10)%Q similarity_threshold)
    (with_default 10 max_results).
End Search.

(** ** Vocabulary of the statements *)

(** The slot of dimension [d] of a row: the bucket the row belongs to
    when the slot is populated. *)
Definition document_slot (d : Z) (r : document) : option vector :=
  if d =? 768 then doc_embedding_768 r
  else if d =? 1024 then doc_embedding_1024 r
  else if d =? 1536 then doc_embedding_1536 r
  else if d =? 3072 then doc_embedding_3072 r
  else None.

Definition code_example_slot (d : Z) (r : code_example) : option vector :=
  if d =? 768 then code_embedding_768 r
  else if d =? 1024 then code_embedding_1024 r
  else if d =? 1536 then code_embedding_1536 r
  else if d =? 3072 then code_embedding_3072 r
  else None.

(** The ivfflat index on the [embedding_d] column of a table, if the
    script creates one, and the retrieval strategy that follows. *)
Definition vector_index (tbl : string) (d : Z) : option index_decl :=
  find (fun ix =>
          String.eqb (index_table ix) tbl
          && match index_method ix with ivfflat => true | btree => false end
          && String.eqb (index_column ix)
               (String.append "embedding_" (format_s (Some d))))
    indexes.

Inductive index_strategy : Type := approximate | exact.

Definition bucket_strategy (tbl : string) (d : Z) : index_strategy :=
  match vector_index tbl d with
  | Some _ => approximate
  | None => exact
  end.

(** The exhaustive scan of the bucket of dimension [d]: every row whose
    slot is populated is scored, the scores below the threshold are
    dropped, the rest is sorted by distance and cut at the limit. *)
Definition passes_threshold (cosine_distance : vector -> vector -> Q)
    (q : vector) (threshold : Q) (slot : option vector) : bool :=
  match slot with
  | Some v => Qle_bool threshold (1 - cosine_distance v q)
  | None => false
  end.

Definition exact_scan {row : Type} (cosine_distance : vector -> vector -> Q)
    (slot : row -> option vector) (tbl : list row)
    (q : vector) (threshold : Q) (lim : Z) : list (row * option Q) :=
  map (fun r => (r, one_minus (distance cosine_distance (slot r) q)))
    (firstn (Z.to_nat lim)
       (order_by (fun r => distance cosine_distance (slot r) q)
          (filter (fun r => passes_threshold cosine_distance q threshold
                              (slot r))
             tbl))).

(** Ranking by descending similarity: every candidate scores at least as
    high as each one after it. *)
Definition ranked_by_similarity (hits : list document_match) : Prop :=
  StronglySorted
    (fun h1 h2 =>
       sql_ge (similarity_score h1) (similarity_score h2) = Some true)
    hits.

(** The same with ties broken by ascending id. *)
Definition ranked_by_similarity_then_id (hits : list document_match)
  : Prop :=
  forall i j h1 h2,
    (i < j)%nat ->
    nth_error hits i = Some h1 ->
    nth_error hits j = Some h2 ->
    sql_ge (similarity_score h1) (similarity_score h2) = Some true
    /\ (sql_ge (similarity_score h2) (similarity_score h1) = Some true ->
        (document_id h1 < document_id h2)%N).

(** ** Sample data

    Cosine distance on operands of norm 1, where it is [1 - a.b] and
    needs no square root; the vectors below all have norm 1. *)
Definition dot (a b : vector) : Q :=
  fold_right Qplus 0%Q (map (fun p => (fst p * snd p)%Q) (combine a b)).

Definition unit_cosine_distance (a b : vector) : Q :=
  Qred (1 - dot a b).

Definition pad (n : nat) (v : vector) : vector :=
  v ++ repeat 0%Q (n - List.length v).

Definition sample_document (id : uuid)
    (e768 e1024 e1536 e3072 : option vector) : document :=
  {| doc_id := id; doc_source_id := None;
     doc_url := "https://example.org/page"; doc_title := Some "page";
     doc_content := "chunk"; doc_content_length := Some 5;
     doc_chunk_index := Some 0;
     doc_embedding_768 := e768; doc_embedding_1024 := e1024;
     doc_embedding_1536 := e1536; doc_embedding_3072 := e3072;
     doc_metadata := Some "{}";
     doc_created_at := None; doc_updated_at := None |}.

Definition sample_code_example (id : uuid)
    (e768 e1024 e1536 e3072 : option vector) : code_example :=
  {| code_row_id := id; code_source_id := None;
     code_language := Some "sql"; code_framework := None;
     code_file_path := None; code_function_name := Some "f";
     code_class_name := None; code_code_snippet := "select 1";
     code_description := None; code_complexity_level := None;
     code_embedding_768 := e768; code_embedding_1024 := e1024;
     code_embedding_1536 := e1536; code_embedding_3072 := e3072;
     code_metadata := Some "{}";
     code_created_at := None; code_updated_at := None |}.

Definition sample_match (id : uuid) (s : Q) : document_match :=
  {| document_id := id; title := Some "page"; content := "chunk";
     url := "https://example.org/page"; similarity_score := Some s |}.

(** The query of the scenario and its three neighbours A (similarity
    0.9), B (0.95) and C (0.5). *)
Definition query_768 : vector := pad 768 [1%Q].
Definition query_3072 : vector := pad 3072 [1%Q].
Definition vec_A : vector := pad 768 [9 # 10; 3 # 10; 3 # 10; 1 # 10]%Q.
Definition vec_B : vector :=
  pad 768 [19 # 20; 5 # 20; 3 # 20; 2 # 20; 1 # 20]%Q.
Definition vec_C : vector := pad 768 [1 # 2; 1 # 2; 1 # 2; 1 # 2]%Q.

Definition scenario_script : list (dml document) :=
  [ Insert (sample_document 1 (Some vec_A) None None None);
    Insert (sample_document 2 (Some vec_B) None None None);
    Insert (sample_document 3 (Some vec_C) None None None) ].

Definition scenario_db : database :=
  {| documents :=
       [ sample_document 1 (Some vec_A) None None None;
         sample_document 2 (Some vec_B) None None None;
         sample_document 3 (Some vec_C) None None None ];
     code_examples :=
       [ sample_code_example 1 (Some vec_A) None None None;
         sample_code_example 2 (Some vec_B) None None None;
         sample_code_example 3 (Some vec_C) None None None ] |}.

(** Two rows with the same vector, the larger id stored first. *)
Definition tie_db : database :=
  {| documents :=
       [ sample_document 2 (Some query_768) None None None;
         sample_document 1 (Some query_768) None None None ];
     code_examples := [] |}.

(** A table with rows in two buckets. *)
Definition mixed_db : database :=
  {| documents :=
       [ sample_document 1 (Some vec_A) None None None;
         sample_document 7 None None None (Some query_3072) ];
     code_examples := [] |}.

Definition query_512 : vector := pad 512 [1%Q].

(** ** Further vocabulary *)

Definition code_ranked_by_similarity (hits : list code_match) : Prop :=
  StronglySorted
    (fun h1 h2 =>
       sql_ge (code_similarity_score h1) (code_similarity_score h2)
       = Some true)
    hits.

(** Code examples in two buckets. *)
Definition sample_code_db : database :=
  {| documents := [];
     code_examples :=
       [ sample_code_example 1 (Some vec_A) None None None;
         sample_code_example 2 (Some vec_B) None None None;
         sample_code_example 3 (Some vec_C) None None None;
         sample_code_example 4 None None None (Some query_3072) ] |}.

Definition sample_code_match (id : uuid) (s : Q) : code_match :=
  {| code_id := id; language := Some "sql"; framework := None;
     function_name := Some "f"; code_snippet := "select 1";
     description := None; code_similarity_score := Some s |}.

Definition tie_script : list (dml document) :=
  [ Insert (sample_document 2 (Some query_768) None None None);
    Insert (sample_document 1 (Some query_768) None None None) ].

(** ** Application settings (lines 19-28 and 285-295;
       00_base_schema.sql, lines 9-18 and 121-129) *)

Record archon_setting : Type := {
  setting_id : uuid;
  setting_key : string;
  setting_value : option string;
  setting_category : option string;
  setting_description : option string;
  setting_is_encrypted : option bool;
  setting_created_at : option Z;
  setting_updated_at : option Z
}.

(** A row of the VALUES list: key, value, category, description. *)
Definition setting_values : Type := (string * string * string * string)%type.

Definition values_key (v : setting_values) : string := fst (fst (fst v)).

(** The default configuration of [00_base_schema.sql]. *)
Definition base_default_configuration : list setting_values :=
  [ ("LLM_PROVIDER", "openai", "rag_strategy", "Primary LLM provider");
    ("EMBEDDING_PROVIDER", "openai", "rag_strategy",
     "Primary embedding provider");
    ("DEFAULT_EMBEDDING_MODEL", "text-embedding-3-small", "rag_strategy",
     "Default embedding model");
    ("DEFAULT_LLM_MODEL", "gpt-4o-mini", "rag_strategy",
     "Default LLM model");
    ("PROJECTS_ENABLED", "false", "features",
     "Enable projects and tasks feature");
    ("MAX_CRAWL_DEPTH", "3", "crawling",
     "Maximum crawl depth for websites");
    ("MAX_CHUNK_SIZE", "1000", "processing",
     "Maximum chunk size for document processing") ].

(** The default configuration of [complete_setup.sql]. *)
Definition default_configuration : list setting_values :=
  [ ("LLM_PROVIDER", "openai", "rag_strategy", "Primary LLM provider");
    ("EMBEDDING_PROVIDER", "openai", "rag_strategy",
     "Primary embedding provider");
    ("DEFAULT_EMBEDDING_MODEL", "text-embedding-3-small", "rag_strategy",
     "Default embedding model");
    ("DEFAULT_LLM_MODEL", "gpt-4o-mini", "rag_strategy",
     "Default LLM model");
    ("PROJECTS_ENABLED", "false", "features",
     "Enable projects and tasks feature");
    ("MAX_CRAWL_DEPTH", "3", "crawling",
     "Maximum crawl depth for websites");
    ("MAX_CHUNK_SIZE", "1000", "processing",
     "Maximum chunk size for document processing");
    ("SUPPORTED_EMBEDDING_DIMENSIONS", "768,1024,1536,3072", "embeddings",
     "Supported embedding dimensions");
    ("DEFAULT_EMBEDDING_DIMENSION", "1536", "embeddings",
     "Default embedding dimension for new content") ].

Definition has_setting_key (tbl : list archon_setting) (k : string) : bool :=
  existsb (fun s => String.eqb (setting_key s) k) tbl.

Definition has_setting_id (tbl : list archon_setting) (i : uuid) : bool :=
  existsb (fun s => N.eqb (setting_id s) i) tbl.

(** INSERT INTO archon_settings (key, value, category, description)
    VALUES ... ON CONFLICT (key) DO NOTHING.

    The columns the statement does not list take their defaults:
    [uuid_generate_v4 n] is the uuid drawn for the n-th row of the list,
    [now] the time of the transaction.  A row whose key is taken is
    skipped; only [key] arbitrates, so a drawn uuid that is taken
    violates the primary key and aborts the statement. *)
Section SettingsInsert.
Variable uuid_generate_v4 : nat -> uuid.
Variable now : Z.

Definition new_setting (n : nat) (v : setting_values) : archon_setting :=
  {| setting_id := uuid_generate_v4 n;
     setting_key := fst (fst (fst v));
     setting_value := Some (snd (fst (fst v)));
     setting_category := Some (snd (fst v));
     setting_description := Some (snd v);
     setting_is_encrypted := Some false;
     setting_created_at := Some now;
     setting_updated_at := Some now |}.

Fixpoint insert_on_conflict_do_nothing (n : nat) (rows : list setting_values)
    (tbl : list archon_setting) : pg_result (list archon_setting) :=
  match rows with
  | [] => Ok tbl
  | v :: rest =>
      if has_setting_key tbl (values_key v)
      then insert_on_conflict_do_nothing (S n) rest tbl
      else if has_setting_id tbl (uuid_generate_v4 n)
      then Error (UniqueViolation (uuid_generate_v4 n))
      else insert_on_conflict_do_nothing (S n) rest
             (tbl ++ [new_setting n v])
  end.

(** What each script does to the settings table. *)
Definition base_schema_settings (tbl : list archon_setting)
  : pg_result (list archon_setting) :=
  insert_on_conflict_do_nothing 0 base_default_configuration tbl.

Definition complete_setup_settings (tbl : list archon_setting)
  : pg_result (list archon_setting) :=
  insert_on_conflict_do_nothing 0 default_configuration tbl.
End SettingsInsert.

(** A setting without its generated columns. *)
Definition setting_content (s : archon_setting)
  : string * option string * option string * option string * option bool :=
  (setting_key s, setting_value s, setting_category s,
   setting_description s, setting_is_encrypted s).

(** A settings table a user has edited: one default changed, one setting
    of their own. *)
Definition sample_settings : list archon_setting :=
  [ {| setting_id := 100; setting_key := "LLM_PROVIDER";
       setting_value := Some "ollama";
       setting_category := Some "rag_strategy";
       setting_description := None; setting_is_encrypted := Some false;
       setting_created_at := Some 5; setting_updated_at := Some 9 |};
    {| setting_id := 101; setting_key := "OLLAMA_BASE_URL";
       setting_value := Some "http://localhost:11434/v1";
       setting_category := Some "rag_strategy";
       setting_description := None; setting_is_encrypted := Some false;
       setting_created_at := Some 6; setting_updated_at := Some 6 |} ].

Definition sample_uuids (n : nat) : uuid := N.of_nat (200 + n).

Definition setting_content_of_values (v : setting_values)
  : string * option string * option string * option string * option bool :=
  (fst (fst (fst v)), Some (snd (fst (fst v))), Some (snd (fst v)),
   Some (snd v), Some false).

Definition content_key
    (c : string * option string * option string * option string
         * option bool) : string :=
  fst (fst (fst (fst c))).

(** The effect of the INSERT on the contents of the table. *)
Fixpoint insert_contents (rows : list setting_values)
    (cs : list (string * option string * option string * option string
                * option bool))
  : list (string * option string * option string * option string
          * option bool) :=
  match rows with
  | [] => cs
  | v :: rest =>
      if existsb (fun c => String.eqb (content_key c) (values_key v)) cs
      then insert_contents rest cs
      else insert_contents rest (cs ++ [setting_content_of_values v])
  end.

(** The settings after [complete_setup.sql] has run on the edited
    table. *)
Definition sample_settings_after : list archon_setting :=
  Eval vm_compute in
    match complete_setup_settings sample_uuids 50 sample_settings with
    | Ok t => t
    | Error _ => []
    end.

(** The same table after [00_base_schema.sql] and then
    [complete_setup.sql], each run drawing its own uuids. *)
Definition sample_settings_after_base : list archon_setting :=
  Eval vm_compute in
    match base_schema_settings (fun n => N.of_nat (300 + n)) 60
            sample_settings with
    | Ok t => t
    | Error _ => []
    end.

Definition sample_settings_two_steps : list archon_setting :=
  Eval vm_compute in
    match complete_setup_settings (fun n => N.of_nat (400 + n)) 70
            sample_settings_after_base with
    | Ok t => t
    | Error _ => []
    end.

(** ** Sources and the rows that reference them (lines 34-45, 50 and 72)

    [documents.source_id] and [code_examples.source_id] reference
    [sources(id)] ON DELETE CASCADE. *)

Record source : Type := {
  source_id : uuid;
  source_url : string;
  source_type : string;
  source_status : string;
  source_title : option string;
  source_description : option string;
  source_metadata : option string;
  source_crawl_date : option Z;
  source_created_at : option Z;
  source_updated_at : option Z
}.

Record store : Type := {
  sources : list source;
  store_tables : database
}.

Inductive store_error : Type :=
| ForeignKeyViolation (table : string) (key : uuid)
    (* 23503: key is not present in table "sources" *)
| Raised (e : pg_error).

Inductive statement : Type :=
| InsertSource (s : source)
| DeleteSource (key : uuid)
| WriteDocument (w : dml document)
| WriteCodeExample (w : dml code_example).

Definition has_source (srcs : list source) (k : uuid) : bool :=
  existsb (fun s => N.eqb (source_id s) k) srcs.

(** A reference that holds: NULL, or the key of a source. *)
Definition references_source (srcs : list source) (ref : option uuid)
  : bool :=
  match ref with
  | None => true
  | Some k => has_source srcs k
  end.

Definition refers_to (ref : option uuid) (k : uuid) : bool :=
  match ref with
  | None => false
  | Some k' => N.eqb k' k
  end.

(** The row a write puts into the table, if it puts one: an UPDATE that
    matches no row writes nothing. *)
Definition written_row {row : Type} (row_id : row -> uuid) (tbl : list row)
    (w : dml row) : option row :=
  match w with
  | Insert r => Some r
  | Update k r => if has_key row_id tbl k then Some r else None
  | Delete _ => None
  end.

(** A write to a referencing table: the column types and the primary key
    are checked as the row is written, the reference once it is. *)
Definition exec_referencing {row : Type} (row_id : row -> uuid)
    (check_row : row -> pg_result unit) (row_source : row -> option uuid)
    (table : string) (srcs : list source) (tbl : list row) (w : dml row)
  : store_error + list row :=
  match exec_dml row_id check_row tbl w with
  | Error e => inl (Raised e)
  | Ok tbl' =>
      match written_row row_id tbl w with
      | Some r =>
          match row_source r with
          | Some k =>
              if has_source srcs k then inr tbl'
              else inl (ForeignKeyViolation table k)
          | None => inr tbl'
          end
      | None => inr tbl'
      end
  end.

Definition exec_statement (st : store) (s : statement)
  : store_error + store :=
  match s with
  | InsertSource src =>
      if has_source (sources st) (source_id src)
      then inl (Raised (UniqueViolation (source_id src)))
      else inr {| sources := sources st ++ [src];
                  store_tables := store_tables st |}
  | DeleteSource k =>
      inr {| sources :=
               filter (fun s => negb (N.eqb (source_id s) k)) (sources st);
             store_tables :=
               {| documents :=
                    filter (fun d => negb (refers_to (doc_source_id d) k))
                      (documents (store_tables st));
                  code_examples :=
                    filter (fun c => negb (refers_to (code_source_id c) k))
                      (code_examples (store_tables st)) |} |}
  | WriteDocument w =>
      match exec_referencing doc_id check_document doc_source_id
              "documents" (sources st) (documents (store_tables st)) w with
      | inl e => inl e
      | inr docs =>
          inr {| sources := sources st;
                 store_tables :=
                   {| documents := docs;
                      code_examples := code_examples (store_tables st) |} |}
      end
  | WriteCodeExample w =>
      match exec_referencing code_row_id check_code_example code_source_id
              "code_examples" (sources st)
              (code_examples (store_tables st)) w with
      | inl e => inl e
      | inr codes =>
          inr {| sources := sources st;
                 store_tables :=
                   {| documents := documents (store_tables st);
                      code_examples := codes |} |}
      end
  end.

Fixpoint exec_statements (st : store) (script : list statement)
  : store_error + store :=
  match script with
  | [] => inr st
  | s :: rest =>
      match exec_statement st s with
      | inl e => inl e
      | inr st' => exec_statements st' rest
      end
  end.

Definition empty_store : store :=
  {| sources := [];
     store_tables := {| documents := []; code_examples := [] |} |}.

(** What the constraints maintain. *)
Definition store_consistent (st : store) : Prop :=
  NoDup (map source_id (sources st))
  /\ table_valid doc_id check_document (documents (store_tables st))
  /\ table_valid code_row_id check_code_example
       (code_examples (store_tables st))
  /\ Forall (fun d => references_source (sources st) (doc_source_id d) = true)
       (documents (store_tables st))
  /\ Forall (fun c => references_source (sources st) (code_source_id c) = true)
       (code_examples (store_tables st)).

Definition sample_source (id : uuid) : source :=
  {| source_id := id; source_url := "https://example.org";
     source_type := "website"; source_status := "completed";
     source_title := None; source_description := None;
     source_metadata := Some "{}"; source_crawl_date := None;
     source_created_at := None; source_updated_at := None |}.

Definition document_of_source (id src : uuid) (e768 : vector) : document :=
  {| doc_id := id; doc_source_id := Some src;
     doc_url := "https://example.org/page"; doc_title := Some "page";
     doc_content := "chunk"; doc_content_length := Some 5;
     doc_chunk_index := Some 0;
     doc_embedding_768 := Some e768; doc_embedding_1024 := None;
     doc_embedding_1536 := None; doc_embedding_3072 := None;
     doc_metadata := Some "{}";
     doc_created_at := None; doc_updated_at := None |}.

(** Two sources with one page each. *)
Definition sample_store_script : list statement :=
  [ InsertSource (sample_source 10);
    InsertSource (sample_source 11);
    WriteDocument (Insert (document_of_source 1 10 vec_A));
    WriteDocument (Insert (document_of_source 2 11 vec_B)) ].

Definition sample_store : store :=
  Eval cbv in
    match exec_statements empty_store sample_store_script with
    | inr st => st
    | inl _ => empty_store
    end.

Definition sample_store_after_delete : store :=
  Eval cbv in
    match exec_statement sample_store (DeleteSource 10) with
    | inr st => st
    | inl _ => empty_store
    end.

(** ** Projects and tasks (lines 95-123)

    [tasks.project_id] references [projects(id)] ON DELETE CASCADE;
    [tasks.parent_task_id] references [tasks(id)] ON DELETE SET NULL. *)

Record project : Type := {
  project_id : uuid;
  project_title : string;
  project_description : option string;
  project_status : option string;
  project_prd : option string;
  project_features : option string;
  project_docs : option string;
  project_github_repo : option string;
  project_created_at : option Z;
  project_updated_at : option Z
}.

Record task : Type := {
  task_id : uuid;
  task_project_id : option uuid;
  task_parent_task_id : option uuid;
  task_title : string;
  task_description : option string;
  task_status : option string;
  task_assignee : option string;
  task_order : option Z;
  task_feature : option string;
  task_sources : option string;
  task_code_examples : option string;
  task_created_at : option Z;
  task_updated_at : option Z
}.

Record board : Type := {
  projects : list project;
  tasks : list task
}.

Inductive board_statement : Type :=
| InsertProject (p : project)
| DeleteProject (key : uuid)
| InsertTask (t : task)
| DeleteTask (key : uuid).

Definition has_project (ps : list project) (k : uuid) : bool :=
  existsb (fun p => N.eqb (project_id p) k) ps.

Definition has_task (ts : list task) (k : uuid) : bool :=
  existsb (fun t => N.eqb (task_id t) k) ts.

(** A task row with its [parent_task_id] replaced. *)
Definition set_parent_task_id (t : task) (p : option uuid) : task :=
  {| task_id := task_id t;
     task_project_id := task_project_id t;
     task_parent_task_id := p;
     task_title := task_title t;
     task_description := task_description t;
     task_status := task_status t;
     task_assignee := task_assignee t;
     task_order := task_order t;
     task_feature := task_feature t;
     task_sources := task_sources t;
     task_code_examples := task_code_examples t;
     task_created_at := task_created_at t;
     task_updated_at := task_updated_at t |}.

(** ON DELETE SET NULL: the reference of a row whose parent goes. *)
Definition orphan (gone : uuid -> bool) (t : task) : task :=
  set_parent_task_id t
    match task_parent_task_id t with
    | Some p => if gone p then None else Some p
    | None => None
    end.

(** Removes the tasks that [gone] selects and clears the references to
    them in the tasks that stay.  The rows that are not rewritten keep
    their places; for each removed task in turn, its children among the
    rows that stay are rewritten with a NULL parent, and a rewritten row
    is a new row version that a scan meets after the rows already
    there. *)
Definition delete_tasks (gone : task -> bool) (ts : list task) : list task :=
  let removed := filter gone ts in
  let stay := filter (fun t => negb (gone t)) ts in
  let rewritten (t : task) :=
    match task_parent_task_id t with
    | Some p => has_task removed p
    | None => false
    end in
  filter (fun t => negb (rewritten t)) stay
  ++ flat_map
       (fun g =>
          map (orphan (N.eqb (task_id g)))
            (filter (fun t => refers_to (task_parent_task_id t) (task_id g))
               stay))
       removed.

Definition exec_board_statement (b : board) (s : board_statement)
  : store_error + board :=
  match s with
  | InsertProject p =>
      if has_project (projects b) (project_id p)
      then inl (Raised (UniqueViolation (project_id p)))
      else inr {| projects := projects b ++ [p]; tasks := tasks b |}
  | DeleteProject k =>
      inr {| projects :=
               filter (fun p => negb (N.eqb (project_id p) k)) (projects b);
             tasks :=
               delete_tasks (fun t => refers_to (task_project_id t) k)
                 (tasks b) |}
  | InsertTask t =>
      let added := {| projects := projects b; tasks := tasks b ++ [t] |} in
      let check_parent :=
        match task_parent_task_id t with
        | Some q =>
            if has_task (tasks b ++ [t]) q then inr added
            else inl (ForeignKeyViolation "tasks" q)
        | None => inr added
        end in
      if has_task (tasks b) (task_id t)
      then inl (Raised (UniqueViolation (task_id t)))
      else
        match task_project_id t with
        | Some p =>
            if has_project (projects b) p then check_parent
            else inl (ForeignKeyViolation "tasks" p)
        | None => check_parent
        end
  | DeleteTask k =>
      inr {| projects := projects b;
             tasks := delete_tasks (fun t => N.eqb (task_id t) k) (tasks b) |}
  end.

Fixpoint exec_board_statements (b : board) (script : list board_statement)
  : store_error + board :=
  match script with
  | [] => inr b
  | s :: rest =>
      match exec_board_statement b s with
      | inl e => inl e
      | inr b' => exec_board_statements b' rest
      end
  end.

Definition empty_board : board := {| projects := []; tasks := [] |}.

Definition board_consistent (b : board) : Prop :=
  NoDup (map project_id (projects b))
  /\ NoDup (map task_id (tasks b))
  /\ Forall (fun t =>
               match task_project_id t with
               | Some p => has_project (projects b) p = true
               | None => True
               end) (tasks b)
  /\ Forall (fun t =>
               match task_parent_task_id t with
               | Some q => has_task (tasks b) q = true
               | None => True
               end) (tasks b).

Definition sample_project (id : uuid) : project :=
  {| project_id := id; project_title := "project";
     project_description := None; project_status := Some "active";
     project_prd := Some "{}"; project_features := Some "[]";
     project_docs := Some "[]"; project_github_repo := None;
     project_created_at := None; project_updated_at := None |}.

Definition sample_task (id : uuid) (proj parent : option uuid) : task :=
  {| task_id := id; task_project_id := proj;
     task_parent_task_id := parent; task_title := "task";
     task_description := None; task_status := Some "todo";
     task_assignee := Some "User"; task_order := Some 0;
     task_feature := None; task_sources := Some "[]";
     task_code_examples := Some "[]";
     task_created_at := None; task_updated_at := None |}.

(** Two projects; task 2 of the second project is a child of task 1 of
    the first; then the first project is deleted. *)
Definition sample_board_script : list board_statement :=
  [ InsertProject (sample_project 1);
    InsertProject (sample_project 2);
    InsertTask (sample_task 1 (Some 1%N) None);
    InsertTask (sample_task 2 (Some 2%N) (Some 1%N));
    InsertTask (sample_task 3 (Some 1%N) (Some 2%N));
    DeleteProject 1 ].

Definition sample_board : board :=
  {| projects := [sample_project 2];
     tasks := [sample_task 2 (Some 2%N) None] |}.

Definition sample_board_inserts : list board_statement :=
  [ InsertProject (sample_project 1);
    InsertProject (sample_project 2);
    InsertTask (sample_task 1 (Some 1%N) None);
    InsertTask (sample_task 2 (Some 2%N) (Some 1%N));
    InsertTask (sample_task 3 (Some 1%N) (Some 2%N)) ].

Definition sample_board_before : board :=
  {| projects := [sample_project 1; sample_project 2];
     tasks := [ sample_task 1 (Some 1%N) None;
                sample_task 2 (Some 2%N) (Some 1%N);
                sample_task 3 (Some 1%N) (Some 2%N) ] |}.

(** Task 2 is a child of task 1; task 3 is not. *)
Definition sample_family : board :=
  {| projects := [sample_project 1];
     tasks := [ sample_task 1 (Some 1%N) None;
                sample_task 2 (Some 1%N) (Some 1%N);
                sample_task 3 (Some 1%N) None ] |}.

(** ** The migration (migration/add_multi_dimensional_vectors.sql,
       lines 10-26)

    ALTER TABLE ... ADD COLUMN IF NOT EXISTS on the two tables of an
    existing installation. *)

Inductive sql_type : Type :=
| TyVector (dims : Z)
| TyText
| TyInteger
| TyOther (name : string).

Record column : Type := {
  column_name : string;
  column_type : sql_type
}.

(** A table of the catalog: its name and its columns in order. *)
Definition catalog : Type := list (string * list column).

Inductive ddl_error : Type :=
| UndefinedTable (name : string)
    (* 42P01: relation "..." does not exist *).

Definition has_column (cols : list column) (name : string) : bool :=
  existsb (fun c => String.eqb (column_name c) name) cols.

Definition add_column_if_not_exists (cols : list column) (c : column)
  : list column :=
  if has_column cols (column_name c) then cols else cols ++ [c].

(** The columns both ALTER TABLE statements add. *)
Definition multi_dimensional_columns : list column :=
  [ {| column_name := "embedding_768"; column_type := TyVector 768 |};
    {| column_name := "embedding_1024"; column_type := TyVector 1024 |};
    {| column_name := "embedding_1536"; column_type := TyVector 1536 |};
    {| column_name := "embedding_3072"; column_type := TyVector 3072 |};
    {| column_name := "embedding_model"; column_type := TyText |};
    {| column_name := "embedding_dimensions"; column_type := TyInteger |} ].

Fixpoint alter_table (cat : catalog) (table : string)
    (new : list column) : ddl_error + catalog :=
  match cat with
  | [] => inl (UndefinedTable table)
  | (name, cols) :: rest =>
      if String.eqb name table
      then inr ((name, fold_left add_column_if_not_exists new cols) :: rest)
      else
        match alter_table rest table new with
        | inl e => inl e
        | inr rest' => inr ((name, cols) :: rest')
        end
  end.

(** The two statements, in one transaction. *)
Definition add_multi_dimensional_vectors (cat : catalog)
  : ddl_error + catalog :=
  match alter_table cat "archon_crawled_pages" multi_dimensional_columns with
  | inl e => inl e
  | inr cat' =>
      alter_table cat' "archon_code_examples" multi_dimensional_columns
  end.

Fixpoint table_columns (cat : catalog) (table : string)
  : option (list column) :=
  match cat with
  | [] => None
  | (name, cols) :: rest =>
      if String.eqb name table then Some cols else table_columns rest table
  end.

Fixpoint column_type_of (cols : list column) (name : string)
  : option sql_type :=
  match cols with
  | [] => None
  | c :: rest =>
      if String.eqb (column_name c) name then Some (column_type c)
      else column_type_of rest name
  end.

(** An installation whose pages table already has an [embedding_768]
    column, of another width. *)
Definition sample_catalog : catalog :=
  [ ("archon_crawled_pages",
     [ {| column_name := "id"; column_type := TyOther "bigserial" |};
       {| column_name := "content"; column_type := TyText |};
       {| column_name := "embedding_768"; column_type := TyVector 1536 |} ]);
    ("archon_code_examples",
     [ {| column_name := "id"; column_type := TyOther "bigserial" |};
       {| column_name := "summary"; column_type := TyText |} ]) ].

Definition sample_catalog_migrated : catalog :=
  Eval vm_compute in
    match add_multi_dimensional_vectors sample_catalog with
    | inr c => c
    | inl _ => []
    end.

(** The catalog after an ALTER TABLE that found its table. *)
Fixpoint alter_columns (cat : catalog) (table : string) (new : list column)
  : catalog :=
  match cat with
  | [] => []
  | (name, cols) :: rest =>
      if String.eqb name table
      then (name, fold_left add_column_if_not_exists new cols) :: rest
      else (name, cols) :: alter_columns rest table new
  end.

(** ** The Ollama configuration panel
       (archon-ui-main/src/components/settings/OllamaConfigurationPanel.tsx,
       lines 77-98 and 287-300; the instance type, lines 756-771)

    A handler is a function of the state it was rendered with and of the
    outcome of the calls it awaits; [undefined] is [None]. *)
Module Ollama.

Inductive instance_type : Type := chat | embedding | both.

Record health_status : Type := {
  status_isHealthy : bool;
  status_responseTimeMs : option Q;
  status_modelsAvailable : option Q;
  status_error : option string;
  status_lastChecked : option Q
}.

Record instance : Type := {
  id : string;
  name : string;
  baseUrl : string;
  isEnabled : bool;
  isPrimary : bool;
  loadBalancingWeight : Q;
  instanceType : option instance_type;
  healthStatus : option health_status;
  (* read and written by the panel, beside the declared fields *)
  isHealthy : option bool;
  responseTimeMs : option Q;
  modelsAvailable : option Q;
  lastHealthCheck : option string
}.

(** [{...inst, isPrimary: b}] *)
Definition with_isPrimary (inst : instance) (b : bool) : instance :=
  {| id := id inst; name := name inst; baseUrl := baseUrl inst;
     isEnabled := isEnabled inst; isPrimary := b;
     loadBalancingWeight := loadBalancingWeight inst;
     instanceType := instanceType inst; healthStatus := healthStatus inst;
     isHealthy := isHealthy inst; responseTimeMs := responseTimeMs inst;
     modelsAvailable := modelsAvailable inst;
     lastHealthCheck := lastHealthCheck inst |}.

(** The state the handlers change: the [instances] state, the [loading]
    flag, the toasts shown (message and kind), the item
    ['ollama-instances'] of localStorage (the list it serialises), and
    the calls of the [onConfigChange] prop. *)
Record panel : Type := {
  instances : list instance;
  loading : bool;
  toasts : list (string * string);
  local_backup : option (list instance);
  config_changes : list (list instance)
}.

(** [saveInstances]: [db_accepts] says whether
    [credentialsService.setOllamaInstances] resolved, [storage_accepts]
    whether [localStorage.setItem] returned. *)
Definition saveInstances (db_accepts storage_accepts : bool)
    (newInstances : list instance) (p : panel) : panel :=
  if db_accepts then
    {| instances := newInstances;
       loading := false;
       toasts := toasts p;
       local_backup :=
         if storage_accepts then Some newInstances else local_backup p;
       config_changes := config_changes p ++ [newInstances] |}
  else
    {| instances := instances p;
       loading := false;
       toasts :=
         toasts p
         ++ [("Failed to save Ollama configuration to database", "error")];
       local_backup := local_backup p;
       config_changes := config_changes p |}.

Definition handleSetPrimary (db_accepts storage_accepts : bool)
    (instanceId : string) (p : panel) : panel :=
  saveInstances db_accepts storage_accepts
    (map (fun inst => with_isPrimary inst (String.eqb (id inst) instanceId))
       (instances p))
    p.

Definition sample_instance (i : string) (primary : bool) : instance :=
  {| id := i; name := "host"; baseUrl := "http://localhost:11434";
     isEnabled := true; isPrimary := primary;
     loadBalancingWeight := 100%Q; instanceType := Some both;
     healthStatus := None; isHealthy := None; responseTimeMs := None;
     modelsAvailable := None; lastHealthCheck := None |}.

Definition sample_panel : panel :=
  {| instances :=
       [ sample_instance "instance-1" true;
         sample_instance "instance-2" false;
         sample_instance "instance-3" true ];
     loading := false; toasts := []; local_backup := None;
     config_changes := [] |}.

End Ollama.

Definition mixed_script : list (dml document) :=
  [ Insert (sample_document 1 (Some vec_A) None None None);
    Insert (sample_document 7 None None None (Some query_3072)) ].

(** The same two records in both tables, stored in opposite orders, in
    the bucket that is always scanned row by row. *)
Definition swapped_db : database :=
  {| documents :=
       [ sample_document 2 None None None (Some query_3072);
         sample_document 1 None None None (Some query_3072) ];
     code_examples :=
       [ sample_code_example 1 None None None (Some query_3072);
         sample_code_example 2 None None None (Some query_3072) ] |}.

Definition swapped_script : list (dml document) :=
  [ Insert (sample_document 2 None None None (Some query_3072));
    Insert (sample_document 1 None None None (Some query_3072)) ].

Definition swapped_code_script : list (dml code_example) :=
  [ Insert (sample_code_example 1 None None None (Some query_3072));
    Insert (sample_code_example 2 None None None (Some query_3072)) ].

(** ** Scenario runs *)

Example scenario_search :
  search_similar_documents unit_cosine_distance scenario_db query_768
    (7 # 10) 10
  = Ok [sample_match 2 (19 # 20); sample_match 1 (9 # 10)].
Proof. vm_compute. reflexivity. Qed.

Example tie_search :
  search_similar_documents unit_cosine_distance tie_db query_768
    (7 # 10) 10
  = Ok [sample_match 2 1; sample_match 1 1].
Proof. vm_compute. reflexivity. Qed.

Example unsupported_search :
  search_similar_documents unit_cosine_distance scenario_db query_512
    (7 # 10) 10
  = Error (UndefinedColumn "embedding_512").
Proof. vm_compute. reflexivity. Qed.

Example wide_search :
  search_similar_documents unit_cosine_distance mixed_db query_3072
    (7 # 10) 10
  = Ok [sample_match 7 1].
Proof. vm_compute. reflexivity. Qed.

Example scenario_persisted :
  documents_after scenario_script = Ok (documents scenario_db).
Proof. vm_compute. reflexivity. Qed.

(** ** Column names *)

Lemma to_int_proper (z : Z) :
  Z.to_int z <> Decimal.Pos Decimal.Nil
  /\ Z.to_int z <> Decimal.Neg Decimal.Nil.
Proof.
  destruct z as [|p|p]; simpl; split; try discriminate;
    intros [= H]; exact (DecimalPos.Unsigned.to_uint_nonnil p H).
Qed.

Lemma string_of_dimension_inj (a b : Z) :
  NilZero.string_of_int (Z.to_int a) = NilZero.string_of_int (Z.to_int b) ->
  a = b.
Proof.
  intros H.
  apply DecimalZ.to_int_inj.
  destruct (to_int_proper a) as [Ha1 Ha2].
  destruct (to_int_proper b) as [Hb1 Hb2].
  pose proof (NilZero.isi _ Ha1 Ha2) as Ea.
  pose proof (NilZero.isi _ Hb1 Hb2) as Eb.
  rewrite H in Ea. congruence.
Qed.

Lemma string_of_dimension_nonempty (a : Z) :
  NilZero.string_of_int (Z.to_int a) <> "".
Proof.
  intros H.
  destruct (to_int_proper a) as [Ha1 Ha2].
  pose proof (NilZero.isi _ Ha1 Ha2) as Ea.
  rewrite H in Ea. discriminate.
Qed.

(** The formatted name is a given column's name exactly when the CASE of
    the Registry would select that dimension. *)
Lemma column_name_eqb (dim : option Z) (n : Z) :
  String.eqb (String.append "embedding_" (format_s dim))
    (String.append "embedding_" (format_s (Some n)))
  = case_when dim n.
Proof.
  cbn [String.append String.eqb Ascii.eqb Bool.eqb].
  destruct dim as [z|]; cbn [format_s case_when].
  - destruct (Z.eqb_spec z n) as [->|Hne].
    + apply String.eqb_refl.
    + apply String.eqb_neq. intros H. apply Hne.
      now apply string_of_dimension_inj.
  - apply String.eqb_neq. intros H. symmetry in H.
    now apply string_of_dimension_nonempty in H.
Qed.

Lemma is_supported_cases (d : Z) :
  is_supported d = true <-> d = 768 \/ d = 1024 \/ d = 1536 \/ d = 3072.
Proof.
  unfold is_supported, supported_dimensions. cbn [existsb].
  rewrite !Bool.orb_true_iff, !Z.eqb_eq. intuition discriminate.
Qed.

Lemma is_supported_case_when (d : Z) :
  is_supported d
  = case_when (Some d) 768 || case_when (Some d) 1024
    || case_when (Some d) 1536 || case_when (Some d) 3072.
Proof.
  unfold is_supported, supported_dimensions. cbn [existsb case_when].
  now rewrite Bool.orb_false_r, !Bool.orb_assoc.
Qed.

Lemma documents_column_resolution (dim : option Z) :
  documents_vector_column (String.append "embedding_" (format_s dim))
  = match dim with
    | Some d => if is_supported d then Some (document_slot d) else None
    | None => None
    end.
Proof.
  unfold documents_vector_column.
  change "embedding_768" with (String.append "embedding_" (format_s (Some 768))).
  change "embedding_1024" with (String.append "embedding_" (format_s (Some 1024))).
  change "embedding_1536" with (String.append "embedding_" (format_s (Some 1536))).
  change "embedding_3072" with (String.append "embedding_" (format_s (Some 3072))).
  rewrite !column_name_eqb.
  destruct dim as [d|]; [|reflexivity].
  rewrite is_supported_case_when. cbn [case_when].
  destruct (Z.eqb_spec d 768) as [->|]; [reflexivity|].
  destruct (Z.eqb_spec d 1024) as [->|]; [reflexivity|].
  destruct (Z.eqb_spec d 1536) as [->|]; [reflexivity|].
  destruct (Z.eqb_spec d 3072) as [->|]; reflexivity.
Qed.

Lemma code_examples_column_resolution (dim : option Z) :
  code_examples_vector_column (String.append "embedding_" (format_s dim))
  = match dim with
    | Some d => if is_supported d then Some (code_example_slot d) else None
    | None => None
    end.
Proof.
  unfold code_examples_vector_column.
  change "embedding_768" with (String.append "embedding_" (format_s (Some 768))).
  change "embedding_1024" with (String.append "embedding_" (format_s (Some 1024))).
  change "embedding_1536" with (String.append "embedding_" (format_s (Some 1536))).
  change "embedding_3072" with (String.append "embedding_" (format_s (Some 3072))).
  rewrite !column_name_eqb.
  destruct dim as [d|]; [|reflexivity].
  rewrite is_supported_case_when. cbn [case_when].
  destruct (Z.eqb_spec d 768) as [->|]; [reflexivity|].
  destruct (Z.eqb_spec d 1024) as [->|]; [reflexivity|].
  destruct (Z.eqb_spec d 1536) as [->|]; [reflexivity|].
  destruct (Z.eqb_spec d 3072) as [->|]; reflexivity.
Qed.

(** ** ORDER BY: a stable sort *)

Lemma key_le_total (a b : option Q) : key_le a b = true \/ key_le b a = true.
Proof.
  destruct a as [x|], b as [y|]; cbn; auto.
  rewrite !Qle_bool_iff.
  destruct (Qlt_le_dec x y) as [H|H]; [left; now apply Qlt_le_weak|now right].
Qed.

Lemma key_le_trans (a b c : option Q) :
  key_le a b = true -> key_le b c = true -> key_le a c = true.
Proof.
  destruct a as [x|], b as [y|], c as [z|]; cbn; try easy.
  rewrite !Qle_bool_iff. apply Qle_trans.
Qed.

Section OrderBy.
Context {A : Type}.
Variable key : A -> option Q.

Lemma insert_by_perm (x : A) (l : list A) :
  Permutation (insert_by key x l) (x :: l).
Proof.
  induction l as [|y l IH]; cbn.
  - reflexivity.
  - destruct (key_le (key x) (key y)).
    + reflexivity.
    + rewrite IH. apply perm_swap.
Qed.

Lemma order_by_perm (l : list A) : Permutation (order_by key l) l.
Proof.
  induction l as [|x l IH]; cbn.
  - reflexivity.
  - rewrite insert_by_perm. now constructor.
Qed.

Lemma order_by_in (x : A) (l : list A) : In x (order_by key l) <-> In x l.
Proof.
  split; apply Permutation_in;
    [apply order_by_perm | symmetry; apply order_by_perm].
Qed.

Lemma insert_by_sorted (x : A) (l : list A) :
  StronglySorted (key_ordered key) l ->
  StronglySorted (key_ordered key) (insert_by key x l).
Proof.
  induction 1 as [|y l Hs IH Hy]; cbn.
  - repeat constructor.
  - destruct (key_le (key x) (key y)) eqn:E.
    + constructor; [now constructor|].
      constructor; [exact E|].
      eapply Forall_impl; [|exact Hy].
      intros z Hz. eapply key_le_trans; [exact E|exact Hz].
    + constructor; [exact IH|].
      eapply Permutation_Forall; [symmetry; apply insert_by_perm|].
      constructor; [|exact Hy].
      destruct (key_le_total (key x) (key y)) as [H|H]; [congruence|exact H].
Qed.

Lemma order_by_sorted (l : list A) :
  StronglySorted (key_ordered key) (order_by key l).
Proof.
  induction l as [|x l IH]; cbn.
  - constructor.
  - now apply insert_by_sorted.
Qed.
End OrderBy.

Lemma in_firstn {A : Type} (x : A) (n : nat) (l : list A) :
  In x (firstn n l) -> In x l.
Proof.
  intros H. rewrite <- (firstn_skipn n l). apply in_or_app. now left.
Qed.

Lemma firstn_sorted {A : Type} (R : A -> A -> Prop) (n : nat) (l : list A) :
  StronglySorted R l -> StronglySorted R (firstn n l).
Proof.
  intros H. revert n.
  induction H as [|x l Hs IH Hx]; intros [|n]; cbn; try constructor.
  - apply IH.
  - rewrite Forall_forall in *. intros y Hy. apply Hx.
    eapply in_firstn; eauto.
Qed.

Lemma map_sorted {A B : Type} (R : A -> A -> Prop) (S : B -> B -> Prop)
    (f : A -> B) (l : list A) :
  (forall a b, R a b -> S (f a) (f b)) ->
  StronglySorted R l -> StronglySorted S (map f l).
Proof.
  intros HRS. induction 1 as [|x l Hs IH Hx]; cbn; constructor.
  - exact IH.
  - rewrite Forall_forall in *. intros y Hy.
    apply in_map_iff in Hy. destruct Hy as (a & <- & Ha). auto.
Qed.

Lemma insert_by_map {A B : Type} (key : A -> option Q) (f : B -> A)
    (x : B) (l : list B) :
  insert_by key (f x) (map f l)
  = map f (insert_by (fun b => key (f b)) x l).
Proof.
  induction l as [|y l IH]; cbn; [reflexivity|].
  destruct (key_le (key (f x)) (key (f y))); cbn; [reflexivity|].
  now rewrite IH.
Qed.

Lemma order_by_map {A B : Type} (key : A -> option Q) (f : B -> A)
    (l : list B) :
  order_by key (map f l) = map f (order_by (fun b => key (f b)) l).
Proof.
  induction l as [|x l IH]; cbn; [reflexivity|].
  now rewrite IH, insert_by_map.
Qed.

Lemma filter_map_comm {A B : Type} (p : A -> bool) (f : B -> A)
    (l : list B) :
  filter p (map f l) = map f (filter (fun b => p (f b)) l).
Proof.
  induction l as [|x l IH]; cbn; [reflexivity|].
  destruct (p (f x)); cbn; now rewrite IH.
Qed.

(** ** The executor on the queries the search functions build *)

Section ExecutorFacts.
Variable cosine_distance : vector -> vector -> Q.
Context {row : Type}.
Variable vector_column : string -> option (row -> option vector).

Lemma where_clause_passes (col : row -> option vector) (q : vector)
    (threshold : Q) (r : row) :
  is_true
    (sql_and (is_not_null (col r))
       (sql_ge (one_minus (distance cosine_distance (col r) q))
          (Some threshold)))
  = passes_threshold cosine_distance q threshold (col r).
Proof.
  unfold passes_threshold, distance. destruct (col r) as [v|]; cbn.
  - now destruct (Qle_bool threshold (1 - cosine_distance v q)).
  - reflexivity.
Qed.

Lemma execute_resolved (tbl : list row) (name : string)
    (col : row -> option vector) (q : vector) (threshold : Q) (lim : Z) :
  vector_column name = Some col ->
  execute_similarity_query cosine_distance vector_column tbl
    {| score_column := name; notnull_column := name;
       filter_column := name; order_column := name |}
    q threshold lim
  = if lim <? 0 then Error InvalidRowCountInLimit
    else Ok (exact_scan cosine_distance col tbl q threshold lim).
Proof.
  intros Hcol.
  unfold execute_similarity_query, resolve_column. cbn.
  rewrite Hcol. cbn.
  destruct (lim <? 0); [reflexivity|].
  unfold exact_scan. do 4 f_equal.
  apply filter_ext. intros r. apply where_clause_passes.
Qed.

Lemma execute_unresolved (tbl : list row) (name : string)
    (q : vector) (threshold : Q) (lim : Z) :
  vector_column name = None ->
  execute_similarity_query cosine_distance vector_column tbl
    {| score_column := name; notnull_column := name;
       filter_column := name; order_column := name |}
    q threshold lim
  = Error (UndefinedColumn name).
Proof.
  intros Hcol.
  unfold execute_similarity_query, resolve_column. cbn.
  now rewrite Hcol.
Qed.
End ExecutorFacts.

(** ** Invariants of the stored tables *)

Section WriteFacts.
Context {row : Type}.
Variable row_id : row -> uuid.
Variable check_row : row -> pg_result unit.

Lemma has_key_in (tbl : list row) (k : uuid) :
  has_key row_id tbl k = true <-> In k (table_keys row_id tbl).
Proof.
  unfold has_key, table_keys. rewrite existsb_exists, in_map_iff.
  split; intros (r & H1 & H2).
  - apply N.eqb_eq in H2. eauto.
  - exists r. split; [exact H2|]. now apply N.eqb_eq.
Qed.

Lemma update_absent (k : uuid) (r : row) (tbl : list row) :
  ~ In k (table_keys row_id tbl) ->
  map (fun old => if N.eqb (row_id old) k then r else old) tbl = tbl.
Proof.
  induction tbl as [|x tbl IH]; cbn; intros H; [reflexivity|].
  destruct (N.eqb_spec (row_id x) k) as [E|E].
  - exfalso. apply H. now left.
  - f_equal. apply IH. intros Hin. apply H. now right.
Qed.

Lemma update_keys_subset (k : uuid) (r : row) (tbl : list row) (i : uuid) :
  In i (table_keys row_id (map (fun old => if N.eqb (row_id old) k then r else old) tbl)) ->
  i = row_id r \/ In i (table_keys row_id tbl).
Proof.
  induction tbl as [|x tbl IH]; cbn; [tauto|].
  intros [H|H].
  - destruct (N.eqb (row_id x) k); subst; auto.
  - destruct (IH H); auto.
Qed.

Lemma update_same_key (r : row) (tbl : list row) :
  table_keys row_id (map (fun old => if N.eqb (row_id old) (row_id r) then r else old) tbl)
  = table_keys row_id tbl.
Proof.
  induction tbl as [|x tbl IH]; cbn; [reflexivity|].
  f_equal; [|exact IH].
  destruct (N.eqb_spec (row_id x) (row_id r)); congruence.
Qed.

Lemma update_fresh_key (k : uuid) (r : row) (tbl : list row) :
  NoDup (table_keys row_id tbl) -> ~ In (row_id r) (table_keys row_id tbl) ->
  NoDup (table_keys row_id (map (fun old => if N.eqb (row_id old) k then r else old) tbl)).
Proof.
  induction tbl as [|x tbl IH]; cbn; intros Hnd Hfresh; [constructor|].
  inversion Hnd as [|? ? Hx Hnd']; subst.
  destruct (N.eqb_spec (row_id x) k) as [E|E].
  - rewrite update_absent by (now rewrite <- E).
    constructor; [|exact Hnd'].
    intros Hin. apply Hfresh. now right.
  - constructor.
    + intros Hin. apply update_keys_subset in Hin.
      destruct Hin as [Hin|Hin]; [|now apply Hx].
      apply Hfresh. now left.
    + apply IH; [exact Hnd'|]. intros Hin. apply Hfresh. now right.
Qed.

Lemma filter_keys_nodup (p : row -> bool) (tbl : list row) :
  NoDup (table_keys row_id tbl) -> NoDup (table_keys row_id (filter p tbl)).
Proof.
  induction tbl as [|x tbl IH]; cbn; intros Hnd; [constructor|].
  inversion Hnd as [|? ? Hx Hnd']; subst.
  destruct (p x); cbn; [|now apply IH].
  constructor; [|now apply IH].
  intros Hin. apply Hx.
  unfold table_keys in *. rewrite in_map_iff in *.
  destruct Hin as (y & Hy & Hin). exists y. split; [exact Hy|].
  now apply filter_In in Hin.
Qed.

Lemma exec_dml_valid (tbl tbl' : list row) (s : dml row) :
  table_valid row_id check_row tbl ->
  exec_dml row_id check_row tbl s = Ok tbl' ->
  table_valid row_id check_row tbl'.
Proof.
  intros [Hnd Hck] Hexec. destruct s as [r|k r|k]; cbn in Hexec.
  - destruct (check_row r) as [[]|e] eqn:Hr; cbn in Hexec; [|discriminate].
    destruct (has_key row_id tbl (row_id r)) eqn:Hk; [discriminate|].
    injection Hexec as <-. split.
    + unfold table_keys. rewrite map_app. cbn.
      apply Permutation_NoDup with (l := row_id r :: table_keys row_id tbl).
      * apply Permutation_cons_append.
      * constructor; [|exact Hnd].
        intros Hin. apply has_key_in in Hin. congruence.
    + apply Forall_app. split; [exact Hck|]. now constructor.
  - destruct (check_row r) as [[]|e] eqn:Hr; cbn in Hexec; [|discriminate].
    destruct (has_key row_id tbl k && negb (N.eqb (row_id r) k)
              && has_key row_id tbl (row_id r))
      eqn:Hk; [discriminate|].
    injection Hexec as <-. split.
    + rewrite !Bool.andb_false_iff in Hk. destruct Hk as [[Hk|Hk]|Hk].
      * rewrite update_absent; [exact Hnd|].
        intros Hin. apply has_key_in in Hin. congruence.
      * apply Bool.negb_false_iff, N.eqb_eq in Hk. subst k.
        now rewrite update_same_key.
      * apply update_fresh_key; [exact Hnd|].
        intros Hin. apply has_key_in in Hin. congruence.
    + rewrite Forall_forall in *. intros x Hx.
      apply in_map_iff in Hx. destruct Hx as (old & <- & Hold).
      destruct (N.eqb (row_id old) k); auto.
  - injection Hexec as <-. split.
    + now apply filter_keys_nodup.
    + rewrite Forall_forall in *. intros x Hx.
      apply filter_In in Hx. now apply Hck.
Qed.

Lemma exec_script_valid (script : list (dml row)) (tbl tbl' : list row) :
  table_valid row_id check_row tbl ->
  exec_script row_id check_row tbl script = Ok tbl' ->
  table_valid row_id check_row tbl'.
Proof.
  revert tbl. induction script as [|s script IH]; cbn; intros tbl Hv Hexec.
  - now injection Hexec as <-.
  - destruct (exec_dml row_id check_row tbl s) as [t|e] eqn:Hs; cbn in Hexec;
      [|discriminate].
    eapply IH; [|exact Hexec]. eapply exec_dml_valid; eauto.
Qed.
End WriteFacts.

(** ** The exhaustive scan *)

Section ScanFacts.
Variable cosine_distance : vector -> vector -> Q.
Context {row : Type}.
Variable slot : row -> option vector.

Lemma passes_threshold_inv (q : vector) (threshold : Q) (r : row) :
  passes_threshold cosine_distance q threshold (slot r) = true ->
  exists v, slot r = Some v /\ (threshold <= 1 - cosine_distance v q)%Q.
Proof.
  unfold passes_threshold. destruct (slot r) as [v|]; [|discriminate].
  intros H. exists v. split; [reflexivity|]. now apply Qle_bool_iff.
Qed.

(** Every scored row is a row of the table whose slot is populated, with
    the score of that slot, at or above the threshold. *)
Lemma exact_scan_in (tbl : list row) (q : vector) (threshold : Q) (lim : Z)
    (r : row) (s : option Q) :
  In (r, s) (exact_scan cosine_distance slot tbl q threshold lim) ->
  In r tbl
  /\ exists v, slot r = Some v
               /\ s = Some (1 - cosine_distance v q)%Q
               /\ (threshold <= 1 - cosine_distance v q)%Q.
Proof.
  unfold exact_scan. intros H.
  apply in_map_iff in H. destruct H as (r' & [= -> <-] & Hin).
  apply in_firstn, order_by_in, filter_In in Hin.
  destruct Hin as [Hin Hp]. split; [exact Hin|].
  apply passes_threshold_inv in Hp. destruct Hp as (v & Hv & Hle).
  exists v. rewrite Hv. cbn. auto.
Qed.

Lemma exact_scan_length (tbl : list row) (q : vector) (threshold : Q)
    (lim : Z) :
  0 <= lim ->
  Z.of_nat (List.length (exact_scan cosine_distance slot tbl q threshold lim))
  <= lim.
Proof.
  intros Hlim. unfold exact_scan. rewrite length_map.
  pose proof (firstn_le_length (Z.to_nat lim)
    (order_by (fun r => distance cosine_distance (slot r) q)
       (filter (fun r => passes_threshold cosine_distance q threshold (slot r))
          tbl))) as H.
  lia.
Qed.

(** With a limit that covers the table, nothing that passes is left
    out. *)
Lemma exact_scan_complete (tbl : list row) (q : vector) (threshold : Q)
    (lim : Z) (r : row) (v : vector) :
  Z.of_nat (List.length tbl) <= lim ->
  In r tbl -> slot r = Some v ->
  (threshold <= 1 - cosine_distance v q)%Q ->
  In (r, Some (1 - cosine_distance v q)%Q)
    (exact_scan cosine_distance slot tbl q threshold lim).
Proof.
  intros Hlim Hin Hv Hle. unfold exact_scan.
  apply in_map_iff. exists r. split.
  - unfold distance. now rewrite Hv.
  - rewrite firstn_all2.
    + apply order_by_in, filter_In. split; [exact Hin|].
      unfold passes_threshold. rewrite Hv. now apply Qle_bool_iff.
    + pose proof (Permutation_length
        (order_by_perm (fun r => distance cosine_distance (slot r) q)
           (filter (fun r => passes_threshold cosine_distance q threshold
                               (slot r)) tbl))) as Hl.
      pose proof (filter_length_le
        (fun r => passes_threshold cosine_distance q threshold (slot r)) tbl).
      lia.
Qed.

Lemma sorted_weaken_in {A : Type} (R S : A -> A -> Prop) (l : list A) :
  (forall a b, In a l -> In b l -> R a b -> S a b) ->
  StronglySorted R l -> StronglySorted S l.
Proof.
  intros HRS H. induction H as [|x l Hs IH Hx]; constructor.
  - apply IH. intros a b Ha Hb. apply HRS; now right.
  - rewrite Forall_forall in *. intros y Hy.
    apply HRS; [now left|now right|now apply Hx].
Qed.

(** Ascending distance is descending similarity. *)
Lemma exact_scan_ranked (tbl : list row) (q : vector) (threshold : Q)
    (lim : Z) :
  StronglySorted (fun a b => sql_ge (snd a) (snd b) = Some true)
    (exact_scan cosine_distance slot tbl q threshold lim).
Proof.
  unfold exact_scan.
  set (key := fun r => distance cosine_distance (slot r) q).
  set (kept := filter _ tbl).
  apply map_sorted with
    (R := fun a b => In a kept /\ In b kept /\ key_ordered key a b).
  - intros a b (Ha & Hb & Hab). cbn.
    apply filter_In in Ha, Hb.
    destruct Ha as [_ Ha], Hb as [_ Hb].
    apply passes_threshold_inv in Ha, Hb.
    destruct Ha as (va & Hva & _), Hb as (vb & Hvb & _).
    unfold key_ordered, key, distance in *.
    rewrite Hva, Hvb in *. cbn in *.
    f_equal. apply Qle_bool_iff. apply Qle_bool_iff in Hab. lra.
  - apply firstn_sorted.
    apply sorted_weaken_in with (R := key_ordered key).
    + intros a b Ha Hb Hab. rewrite order_by_in in Ha, Hb. auto.
    + apply order_by_sorted.
Qed.
End ScanFacts.

(** ** The search functions, case by case *)

Lemma detect_embedding_dimension_some (q : vector) (d : Z) :
  detect_embedding_dimension q = Some d -> d = vector_dims q.
Proof.
  destruct q; cbn; [discriminate|]. now intros [= <-].
Qed.

Section SearchFacts.
Variable cosine_distance : vector -> vector -> Q.

Lemma search_similar_documents_cases (db : database) (q : vector)
    (threshold : Q) (lim : Z) :
  search_similar_documents cosine_distance db q threshold lim
  = if is_supported (vector_dims q) then
      if lim <? 0 then Error InvalidRowCountInLimit
      else Ok (map document_select_list
                 (exact_scan cosine_distance (document_slot (vector_dims q))
                    (documents db) q threshold lim))
    else Error (UndefinedColumn
                  (String.append "embedding_"
                     (format_s (detect_embedding_dimension q)))).
Proof.
  unfold search_similar_documents, format_similarity_query.
  pose proof (documents_column_resolution (detect_embedding_dimension q))
    as Hcol.
  destruct (detect_embedding_dimension q) as [d|] eqn:Hd.
  - apply detect_embedding_dimension_some in Hd. subst d.
    destruct (is_supported (vector_dims q)).
    + rewrite (execute_resolved _ _ _ _ _ _ _ _ Hcol).
      now destruct (lim <? 0).
    + now rewrite (execute_unresolved _ _ _ _ _ _ _ Hcol).
  - destruct q; [|discriminate]. cbn [vector_dims List.length Z.of_nat].
    change (is_supported 0) with false. cbv iota.
    now rewrite (execute_unresolved _ _ _ _ _ _ _ Hcol).
Qed.

Lemma search_similar_code_examples_cases (db : database) (q : vector)
    (threshold : Q) (lim : Z) :
  search_similar_code_examples cosine_distance db q threshold lim
  = if is_supported (vector_dims q) then
      if lim <? 0 then Error InvalidRowCountInLimit
      else Ok (map code_example_select_list
                 (exact_scan cosine_distance
                    (code_example_slot (vector_dims q))
                    (code_examples db) q threshold lim))
    else Error (UndefinedColumn
                  (String.append "embedding_"
                     (format_s (detect_embedding_dimension q)))).
Proof.
  unfold search_similar_code_examples, format_similarity_query.
  pose proof (code_examples_column_resolution (detect_embedding_dimension q))
    as Hcol.
  destruct (detect_embedding_dimension q) as [d|] eqn:Hd.
  - apply detect_embedding_dimension_some in Hd. subst d.
    destruct (is_supported (vector_dims q)).
    + rewrite (execute_resolved _ _ _ _ _ _ _ _ Hcol).
      now destruct (lim <? 0).
    + now rewrite (execute_unresolved _ _ _ _ _ _ _ Hcol).
  - destruct q; [|discriminate]. cbn [vector_dims List.length Z.of_nat].
    change (is_supported 0) with false. cbv iota.
    now rewrite (execute_unresolved _ _ _ _ _ _ _ Hcol).
Qed.

(** A search that returns rows ran the exhaustive scan of the bucket of
    the query's own dimension. *)
Lemma search_similar_documents_ok (db : database) (q : vector)
    (threshold : Q) (lim : Z) (hits : list document_match) :
  search_similar_documents cosine_distance db q threshold lim = Ok hits ->
  is_supported (vector_dims q) = true /\ 0 <= lim
  /\ hits = map document_select_list
              (exact_scan cosine_distance (document_slot (vector_dims q))
                 (documents db) q threshold lim).
Proof.
  rewrite search_similar_documents_cases.
  destruct (is_supported (vector_dims q)); [|discriminate].
  destruct (Z.ltb_spec lim 0); [discriminate|].
  intros [= <-]. auto.
Qed.
End SearchFacts.

Lemma select_list_score (rs : document * option Q) :
  similarity_score (document_select_list rs) = snd rs.
Proof. reflexivity. Qed.

Lemma search_similar_documents_in (cosine_distance : vector -> vector -> Q)
    (db : database) (q : vector) (threshold : Q) (lim : Z)
    (hits : list document_match) (h : document_match) :
  search_similar_documents cosine_distance db q threshold lim = Ok hits ->
  In h hits ->
  exists r v,
    In r (documents db)
    /\ h = document_select_list (r, Some (1 - cosine_distance v q)%Q)
    /\ document_slot (vector_dims q) r = Some v
    /\ (threshold <= 1 - cosine_distance v q)%Q.
Proof.
  intros Hs Hh. apply search_similar_documents_ok in Hs.
  destruct Hs as (_ & _ & ->).
  apply in_map_iff in Hh. destruct Hh as ([r s] & <- & Hin).
  apply exact_scan_in in Hin. destruct Hin as (Hr & v & Hv & -> & Hle).
  exists r, v. auto.
Qed.

(** * Ranking *)

(** C1 (amended): for every record set and every query vector, a search
    on a query of a provisioned dimension with a non-negative limit
    returns, and whatever a search returns is ranked by descending
    similarity (ascending cosine distance, the one sort key of the
    query).  Nothing orders candidates of equal similarity by id. *)
Theorem search_ranked_by_descending_similarity
    (cosine_distance : vector -> vector -> Q) (db : database) (q : vector)
    (threshold : Q) (lim : Z) :
  (is_supported (vector_dims q) = true -> 0 <= lim ->
   exists hits,
     search_similar_documents cosine_distance db q threshold lim = Ok hits)
  /\ (forall hits,
        search_similar_documents cosine_distance db q threshold lim = Ok hits ->
        ranked_by_similarity hits).
Proof.
  split.
  - intros Hsup Hlim. rewrite search_similar_documents_cases, Hsup.
    destruct (Z.ltb_spec lim 0); [lia|]. eauto.
  - intros hits Hs. apply search_similar_documents_ok in Hs.
    destruct Hs as (_ & _ & ->). unfold ranked_by_similarity.
    eapply map_sorted; [|apply exact_scan_ranked].
    intros a b Hab. exact Hab.
Qed.

Lemma search_ranked_by_descending_similarity_witness :
  search_similar_documents unit_cosine_distance scenario_db query_768
    (7 # 10) 10
  = Ok [sample_match 2 (19 # 20); sample_match 1 (9 # 10)]
  /\ ranked_by_similarity
       [sample_match 2 (19 # 20); sample_match 1 (9 # 10)].
Proof.
  split.
  - vm_compute. reflexivity.
  - apply (proj2 (search_ranked_by_descending_similarity
                    unit_cosine_distance scenario_db query_768 (7 # 10) 10)).
    vm_compute. reflexivity.
Defined.

(** C1, as stated, fails: two stored rows with the same vector come back
    with equal similarity in scan order, here id 2 before id 1. *)
Lemma search_ties_not_broken_by_id :
  ~ (forall hits,
       search_similar_documents unit_cosine_distance tie_db query_768
         (7 # 10) 10 = Ok hits ->
       ranked_by_similarity_then_id hits).
Proof.
  intros H. specialize (H _ tie_search).
  destruct (H 0%nat 1%nat (sample_match 2 1) (sample_match 1 1))
    as [_ Hid]; [lia|reflexivity|reflexivity|].
  specialize (Hid eq_refl). cbn in Hid. lia.
Qed.

(** * Unsupported dimensions *)

(** C2 (amended): for every query vector whose length is not one of 768,
    1024, 1536, 3072, search fails and returns no rows; the failure is the
    undefined-column error of executing the query text that names
    [embedding_<length>], not the Registry's error: the search functions
    format the column name themselves and never call
    [get_embedding_column_name]. *)
Theorem search_unsupported_dimension_fails
    (cosine_distance : vector -> vector -> Q) (db : database) (q : vector)
    (threshold : Q) (lim : Z) :
  is_supported (vector_dims q) = false ->
  search_similar_documents cosine_distance db q threshold lim
  = Error (UndefinedColumn
             (String.append "embedding_"
                (format_s (detect_embedding_dimension q))))
  /\ search_similar_code_examples cosine_distance db q threshold lim
     = Error (UndefinedColumn
                (String.append "embedding_"
                   (format_s (detect_embedding_dimension q)))).
Proof.
  intros Hsup.
  rewrite search_similar_documents_cases,
    search_similar_code_examples_cases, Hsup.
  auto.
Qed.

Lemma search_unsupported_dimension_fails_witness :
  search_similar_documents unit_cosine_distance scenario_db query_512
    (7 # 10) 10
  = Error (UndefinedColumn "embedding_512")
  /\ search_similar_code_examples unit_cosine_distance scenario_db query_512
       (7 # 10) 10
     = Error (UndefinedColumn "embedding_512").
Proof.
  apply (search_unsupported_dimension_fails
           unit_cosine_distance scenario_db query_512 (7 # 10) 10).
  vm_compute. reflexivity.
Defined.

(** C2, as stated, fails: a query of length 512 is rejected by the
    executor with an undefined-column error, while the Registry function
    would have raised its own error for 512. *)
Lemma search_512_not_registry_error :
  is_supported (vector_dims query_512) = false
  /\ get_embedding_column_name (detect_embedding_dimension query_512)
     = Error (UnsupportedDimension (Some 512))
  /\ search_similar_documents unit_cosine_distance scenario_db query_512
       (7 # 10) 10
     = Error (UndefinedColumn "embedding_512")
  /\ ~ (exists d,
          search_similar_documents unit_cosine_distance scenario_db
            query_512 (7 # 10) 10
          = Error (UnsupportedDimension d)).
Proof.
  split; [vm_compute; reflexivity|].
  split; [vm_compute; reflexivity|].
  split; [exact unsupported_search|].
  intros [d Hd]. rewrite unsupported_search in Hd. discriminate.
Qed.

(** * Threshold *)

(** C3: every candidate returned by search scores 1 minus the cosine
    distance between the query and the row's vector, and that score is at
    least the threshold; a row scoring below the threshold is not among
    the results. *)
Theorem search_respects_threshold
    (cosine_distance : vector -> vector -> Q) (db : database) (q : vector)
    (threshold : Q) (lim : Z) (hits : list document_match) :
  search_similar_documents cosine_distance db q threshold lim = Ok hits ->
  (forall h, In h hits ->
     exists r v,
       In r (documents db)
       /\ document_id h = doc_id r
       /\ document_slot (vector_dims q) r = Some v
       /\ similarity_score h = Some (1 - cosine_distance v q)%Q
       /\ (threshold <= 1 - cosine_distance v q)%Q)
  /\ (forall h s, In h hits -> similarity_score h = Some s ->
        ~ (s < threshold)%Q).
Proof.
  intros Hs. split.
  - intros h Hh.
    destruct (search_similar_documents_in _ _ _ _ _ _ _ Hs Hh)
      as (r & v & Hr & -> & Hv & Hle).
    exists r, v. cbn. auto.
  - intros h s Hh Hsc.
    destruct (search_similar_documents_in _ _ _ _ _ _ _ Hs Hh)
      as (r & v & Hr & -> & Hv & Hle).
    cbn in Hsc. injection Hsc as <-. now apply Qle_not_lt.
Qed.

Lemma search_respects_threshold_witness :
  (forall h,
     In h [sample_match 2 (19 # 20); sample_match 1 (9 # 10)] ->
     exists r v,
       In r (documents scenario_db)
       /\ document_id h = doc_id r
       /\ document_slot (vector_dims query_768) r = Some v
       /\ similarity_score h = Some (1 - unit_cosine_distance v query_768)%Q
       /\ (7 # 10 <= 1 - unit_cosine_distance v query_768)%Q)
  /\ (forall h s,
        In h [sample_match 2 (19 # 20); sample_match 1 (9 # 10)] ->
        similarity_score h = Some s -> ~ (s < 7 # 10)%Q).
Proof.
  apply (search_respects_threshold unit_cosine_distance scenario_db
           query_768 (7 # 10) 10).
  vm_compute. reflexivity.
Defined.

(** * Buckets and column types *)

Lemma vector_typmod_ok (n : Z) (slot : option vector) (v : vector) :
  vector_typmod n slot = Ok tt -> slot = Some v -> vector_dims v = n.
Proof.
  intros H ->. cbn in H.
  destruct (Z.eqb_spec (vector_dims v) n); [assumption|discriminate].
Qed.

Lemma check_document_ok (r : document) :
  check_document r = Ok tt ->
  vector_typmod 768 (doc_embedding_768 r) = Ok tt
  /\ vector_typmod 1024 (doc_embedding_1024 r) = Ok tt
  /\ vector_typmod 1536 (doc_embedding_1536 r) = Ok tt
  /\ vector_typmod 3072 (doc_embedding_3072 r) = Ok tt.
Proof.
  unfold check_document.
  destruct (vector_typmod 768 _) as [[]|]; cbn; [|discriminate].
  destruct (vector_typmod 1024 _) as [[]|]; cbn; [|discriminate].
  destruct (vector_typmod 1536 _) as [[]|]; cbn; [|discriminate].
  auto.
Qed.

Lemma check_code_example_ok (r : code_example) :
  check_code_example r = Ok tt ->
  vector_typmod 768 (code_embedding_768 r) = Ok tt
  /\ vector_typmod 1024 (code_embedding_1024 r) = Ok tt
  /\ vector_typmod 1536 (code_embedding_1536 r) = Ok tt
  /\ vector_typmod 3072 (code_embedding_3072 r) = Ok tt.
Proof.
  unfold check_code_example.
  destruct (vector_typmod 768 _) as [[]|]; cbn; [|discriminate].
  destruct (vector_typmod 1024 _) as [[]|]; cbn; [|discriminate].
  destruct (vector_typmod 1536 _) as [[]|]; cbn; [|discriminate].
  auto.
Qed.

Lemma document_slot_dims (r : document) (d : Z) (v : vector) :
  check_document r = Ok tt -> document_slot d r = Some v ->
  vector_dims v = d.
Proof.
  intros Hck Hv. apply check_document_ok in Hck.
  destruct Hck as (H1 & H2 & H3 & H4). unfold document_slot in Hv.
  destruct (Z.eqb_spec d 768) as [->|]; [eapply vector_typmod_ok; eauto|].
  destruct (Z.eqb_spec d 1024) as [->|]; [eapply vector_typmod_ok; eauto|].
  destruct (Z.eqb_spec d 1536) as [->|]; [eapply vector_typmod_ok; eauto|].
  destruct (Z.eqb_spec d 3072) as [->|]; [eapply vector_typmod_ok; eauto|].
  discriminate.
Qed.

Lemma documents_after_valid (script : list (dml document))
    (tbl : list document) :
  documents_after script = Ok tbl ->
  table_valid doc_id check_document tbl.
Proof.
  apply exec_script_valid. split; constructor.
Qed.

Lemma code_examples_after_valid (script : list (dml code_example))
    (tbl : list code_example) :
  code_examples_after script = Ok tbl ->
  table_valid code_row_id check_code_example tbl.
Proof.
  apply exec_script_valid. split; constructor.
Qed.

Lemma key_determines_row {row : Type} (row_id : row -> uuid)
    (tbl : list row) (a b : row) :
  NoDup (table_keys row_id tbl) -> In a tbl -> In b tbl ->
  row_id a = row_id b -> a = b.
Proof.
  induction tbl as [|x tbl IH]; cbn; intros Hnd Ha Hb E; [contradiction|].
  inversion Hnd as [|? ? Hx Hnd']; subst.
  destruct Ha as [->|Ha], Hb as [->|Hb]; auto.
  - exfalso. apply Hx. rewrite E. now apply in_map.
  - exfalso. apply Hx. rewrite <- E. now apply in_map.
Qed.



(** The row of the other bucket in the sample table is kept out. *)
Example other_bucket_row_not_returned :
  document_slot (vector_dims query_768)
    (sample_document 7 None None None (Some query_3072)) = None
  /\ search_similar_documents unit_cosine_distance mixed_db query_768
       (7 # 10) 10
     = Ok [sample_match 1 (9 # 10)].
Proof. split; vm_compute; reflexivity. Qed.

(** C8: in every stored table, [documents] or [code_examples], a
    populated embedding slot holds a vector whose length is the dimension
    of the slot's type, [vector(768)], [vector(1024)], [vector(1536)] or
    [vector(3072)]: no sequence of writes stores a row that breaks it. *)
Theorem slots_have_declared_length :
  (forall script tbl r,
     documents_after script = Ok tbl -> In r tbl ->
     (forall v, doc_embedding_768 r = Some v -> vector_dims v = 768)
     /\ (forall v, doc_embedding_1024 r = Some v -> vector_dims v = 1024)
     /\ (forall v, doc_embedding_1536 r = Some v -> vector_dims v = 1536)
     /\ (forall v, doc_embedding_3072 r = Some v -> vector_dims v = 3072))
  /\ (forall script tbl r,
        code_examples_after script = Ok tbl -> In r tbl ->
        (forall v, code_embedding_768 r = Some v -> vector_dims v = 768)
        /\ (forall v, code_embedding_1024 r = Some v -> vector_dims v = 1024)
        /\ (forall v, code_embedding_1536 r = Some v -> vector_dims v = 1536)
        /\ (forall v, code_embedding_3072 r = Some v ->
              vector_dims v = 3072)).
Proof.
  split; intros script tbl r Hstored Hr.
  - apply documents_after_valid in Hstored. destruct Hstored as [_ Hck].
    rewrite Forall_forall in Hck. specialize (Hck r Hr).
    apply check_document_ok in Hck. destruct Hck as (H1 & H2 & H3 & H4).
    repeat split; intros v Hv; eapply vector_typmod_ok; eauto.
  - apply code_examples_after_valid in Hstored.
    destruct Hstored as [_ Hck].
    rewrite Forall_forall in Hck. specialize (Hck r Hr).
    apply check_code_example_ok in Hck.
    destruct Hck as (H1 & H2 & H3 & H4).
    repeat split; intros v Hv; eapply vector_typmod_ok; eauto.
Qed.

Lemma slots_have_declared_length_witness :
  vector_dims vec_A = 768.
Proof.
  refine (proj1 (proj1 slots_have_declared_length scenario_script
                   (documents scenario_db)
                   (sample_document 1 (Some vec_A) None None None) _ _)
            vec_A _).
  - vm_compute. reflexivity.
  - simpl. left. reflexivity.
  - reflexivity.
Defined.

Example mistyped_insert_rejected :
  documents_after
    [ Insert (sample_document 1 (Some query_512) None None None) ]
  = Error (VectorTypmodMismatch 768 512).
Proof. vm_compute. reflexivity. Qed.

(** * Limit and defaults *)

(** C5: whatever search returns has at most [max_results] rows, and a
    call that leaves out the threshold or the limit runs with 0.7 and
    10. *)
Theorem search_bounded_by_limit
    (cosine_distance : vector -> vector -> Q) (db : database)
    (q : vector) :
  (forall threshold lim hits,
     search_similar_documents cosine_distance db q threshold lim = Ok hits ->
     Z.of_nat (List.length hits) <= lim)
  /\ call_search_similar_documents cosine_distance db q Omitted Omitted
     = search_similar_documents cosine_distance db q (7 # 10) 10
  /\ (forall threshold,
        call_search_similar_documents cosine_distance db q
          (Passed threshold) Omitted
        = search_similar_documents cosine_distance db q threshold 10)
  /\ (forall lim,
        call_search_similar_documents cosine_distance db q
          Omitted (Passed lim)
        = search_similar_documents cosine_distance db q (7 # 10) lim)
  /\ (forall threshold lim,
        call_search_similar_documents cosine_distance db q
          (Passed threshold) (Passed lim)
        = search_similar_documents cosine_distance db q threshold lim).
Proof.
  split; [|repeat split].
  intros threshold lim hits Hs.
  apply search_similar_documents_ok in Hs. destruct Hs as (_ & Hlim & ->).
  rewrite length_map. now apply exact_scan_length.
Qed.

Lemma search_bounded_by_limit_witness :
  Z.of_nat (List.length [sample_match 2 (19 # 20)]) <= 1.
Proof.
  apply (proj1 (search_bounded_by_limit unit_cosine_distance scenario_db
                  query_768) (7 # 10)%Q 1 [sample_match 2 (19 # 20)]).
  vm_compute. reflexivity.
Defined.

(** * The Registry *)

(** C6: [get_embedding_column_name] returns the slot of the dimension
    exactly for 768, 1024, 1536 and 3072, a name that both tables have a
    column for, and raises the unsupported-dimension exception for every
    other dimension, NULL included.  It is a pure function of the
    dimension (IMMUTABLE in the source): it reads and writes no table, so
    nothing is changed before it fails. *)
Theorem get_embedding_column_name_spec (dimension : option Z) :
  match get_embedding_column_name dimension with
  | Ok name =>
      exists d,
        dimension = Some d
        /\ In d supported_dimensions
        /\ name = String.append "embedding_" (format_s (Some d))
        /\ documents_vector_column name = Some (document_slot d)
        /\ code_examples_vector_column name = Some (code_example_slot d)
  | Error e =>
      e = UnsupportedDimension dimension
      /\ forall d, dimension = Some d -> ~ In d supported_dimensions
  end.
Proof.
  unfold get_embedding_column_name.
  destruct dimension as [d|]; cbn [case_when].
  - destruct (Z.eqb_spec d 768) as [->|H1].
    { exists 768. cbn. intuition reflexivity. }
    destruct (Z.eqb_spec d 1024) as [->|H2].
    { exists 1024. cbn. intuition reflexivity. }
    destruct (Z.eqb_spec d 1536) as [->|H3].
    { exists 1536. cbn. intuition reflexivity. }
    destruct (Z.eqb_spec d 3072) as [->|H4].
    { exists 3072. cbn. intuition reflexivity. }
    split; [reflexivity|]. intros d' [= <-]. cbn. intuition congruence.
  - split; [reflexivity|]. discriminate.
Qed.

(** * Index strategy *)

Lemma find_all_false {A : Type} (p : A -> bool) (l : list A) :
  Forall (fun x => p x = false) l -> find p l = None.
Proof.
  induction 1 as [|x l Hx Hl IH]; cbn; [reflexivity|].
  now rewrite Hx.
Qed.

(** C7: on both tables, a provisioned dimension has an index exactly when
    it is at most the index width limit: 768, 1024 and 1536 have an
    ivfflat index with 100 lists on their column; 3072 has none and
    resolves to the exact strategy, and a search on a 3072-dimensional
    query is the exhaustive scan of the bucket whatever the table
    holds. *)
Theorem index_strategy_by_dimension :
  (forall tbl d,
     In tbl ["documents"; "code_examples"] ->
     In d supported_dimensions ->
     (bucket_strategy tbl d = approximate <-> d <= max_index_dimension)
     /\ (forall ix, vector_index tbl d = Some ix ->
           index_table ix = tbl
           /\ index_method ix = ivfflat
           /\ index_column ix
              = String.append "embedding_" (format_s (Some d))
           /\ index_lists ix = Some 100))
  /\ (forall tbl,
        vector_index tbl 3072 = None /\ bucket_strategy tbl 3072 = exact)
  /\ (forall cosine_distance db q threshold lim,
        vector_dims q = 3072 -> 0 <= lim ->
        search_similar_documents cosine_distance db q threshold lim
        = Ok (map document_select_list
                (exact_scan cosine_distance (document_slot 3072)
                   (documents db) q threshold lim))
        /\ search_similar_code_examples cosine_distance db q threshold lim
           = Ok (map code_example_select_list
                   (exact_scan cosine_distance (code_example_slot 3072)
                      (code_examples db) q threshold lim))).
Proof.
  split; [|split].
  - intros tbl d Htbl Hd. cbn in Htbl, Hd.
    unfold bucket_strategy, max_index_dimension.
    destruct Htbl as [<-|[<-|[]]];
      destruct Hd as [<-|[<-|[<-|[<-|[]]]]];
      match goal with
      | |- context [vector_index ?t ?d] =>
          let ix := eval vm_compute in (vector_index t d) in
          change (vector_index t d) with ix
      end;
      (split;
       [ split; intros H; solve [reflexivity | lia | discriminate H]
       | intros ix H; try discriminate H;
         injection H as <-; repeat split; reflexivity ]).
  - intros tbl.
    assert (H : vector_index tbl 3072 = None).
    { unfold vector_index, indexes. apply find_all_false.
      repeat constructor; cbn;
        rewrite ?Bool.andb_false_r; reflexivity. }
    split; [exact H|]. unfold bucket_strategy. now rewrite H.
  - intros cosine_distance db q threshold lim Hq Hlim.
    rewrite search_similar_documents_cases,
      search_similar_code_examples_cases, Hq.
    change (is_supported 3072) with true. cbv iota.
    destruct (Z.ltb_spec lim 0); [lia|]. auto.
Qed.

Lemma get_embedding_column_name_spec_witness :
  ~ In 512 supported_dimensions.
Proof.
  exact (proj2 (get_embedding_column_name_spec (Some 512)) 512 eq_refl).
Defined.

Lemma index_strategy_by_dimension_witness :
  ((bucket_strategy "documents" 768 = approximate
    <-> 768 <= max_index_dimension)
   /\ (forall ix, vector_index "documents" 768 = Some ix ->
         index_table ix = "documents"
         /\ index_method ix = ivfflat
         /\ index_column ix
            = String.append "embedding_" (format_s (Some 768))
         /\ index_lists ix = Some 100))
  /\ search_similar_documents unit_cosine_distance mixed_db query_3072
       (7 # 10) 10
     = Ok (map document_select_list
             (exact_scan unit_cosine_distance (document_slot 3072)
                (documents mixed_db) query_3072 (7 # 10) 10)).
Proof.
  split.
  - apply (proj1 index_strategy_by_dimension "documents" 768).
    + simpl. left. reflexivity.
    + simpl. left. reflexivity.
  - apply (proj2 (proj2 index_strategy_by_dimension)
             unit_cosine_distance mixed_db query_3072 (7 # 10)%Q 10).
    + vm_compute. reflexivity.
    + lia.
Defined.

(** * The empty vector *)

(** C9: [detect_embedding_dimension] returns the element count of every
    vector that has elements and NULL for one that has none, without
    raising; a search with such a query then does not fail with the
    Registry's error: the NULL is formatted into the query text as the
    empty string, the text names a column [embedding_], and executing it
    fails on that name. *)
Theorem empty_query_dimension_is_null :
  (forall v, v <> [] ->
     detect_embedding_dimension v = Some (Z.of_nat (List.length v)))
  /\ detect_embedding_dimension [] = None
  /\ format_similarity_query None None None None
     = {| score_column := "embedding_"; notnull_column := "embedding_";
          filter_column := "embedding_"; order_column := "embedding_" |}
  /\ (forall cosine_distance db threshold lim,
        search_similar_documents cosine_distance db [] threshold lim
        = Error (UndefinedColumn "embedding_")
        /\ search_similar_code_examples cosine_distance db [] threshold lim
           = Error (UndefinedColumn "embedding_")
        /\ forall d,
             search_similar_documents cosine_distance db [] threshold lim
             <> Error (UnsupportedDimension d)).
Proof.
  split; [|split; [|split]].
  - intros [|x v] Hv; [contradiction|reflexivity].
  - reflexivity.
  - reflexivity.
  - intros cosine_distance db threshold lim.
    rewrite search_similar_documents_cases,
      search_similar_code_examples_cases.
    cbn. repeat split. discriminate.
Qed.

Lemma empty_query_dimension_is_null_witness :
  detect_embedding_dimension query_768
  = Some (Z.of_nat (List.length query_768)).
Proof.
  apply (proj1 empty_query_dimension_is_null query_768).
  vm_compute. discriminate.
Defined.

(** * The two search functions *)

(** What a scan returns depends on the rows only through their keys and
    the one slot it reads. *)
Lemma exact_scan_view {row : Type} (cosine_distance : vector -> vector -> Q)
    (row_id : row -> uuid) (slot : row -> option vector) (tbl : list row)
    (q : vector) (threshold : Q) (lim : Z) :
  map (fun rs => (row_id (fst rs), snd rs))
    (exact_scan cosine_distance slot tbl q threshold lim)
  = map (fun ks => (fst (fst ks), snd ks))
      (exact_scan cosine_distance snd
         (map (fun r => (row_id r, slot r)) tbl) q threshold lim).
Proof.
  unfold exact_scan.
  rewrite filter_map_comm, order_by_map, firstn_map, !map_map.
  reflexivity.
Qed.

Lemma search_similar_code_examples_ok
    (cosine_distance : vector -> vector -> Q) (db : database) (q : vector)
    (threshold : Q) (lim : Z) (hits : list code_match) :
  search_similar_code_examples cosine_distance db q threshold lim = Ok hits ->
  is_supported (vector_dims q) = true /\ 0 <= lim
  /\ hits = map code_example_select_list
              (exact_scan cosine_distance (code_example_slot (vector_dims q))
                 (code_examples db) q threshold lim).
Proof.
  rewrite search_similar_code_examples_cases.
  destruct (is_supported (vector_dims q)); [|discriminate].
  destruct (Z.ltb_spec lim 0); [discriminate|].
  intros [= <-]. auto.
Qed.

(** What each function does to the rows it returns: they are rows of its
    table whose slot of the query's dimension is populated, scored 1 minus
    the distance of that slot, at or above the threshold, in order of
    descending score, and at most [max_results] of them. *)
Lemma search_similar_documents_steps
    (cosine_distance : vector -> vector -> Q) (db : database) (q : vector)
    (threshold : Q) (lim : Z) (hits : list document_match) :
  search_similar_documents cosine_distance db q threshold lim = Ok hits ->
  ranked_by_similarity hits
  /\ Z.of_nat (List.length hits) <= lim
  /\ (forall h, In h hits ->
        exists r v,
          In r (documents db)
          /\ h = document_select_list (r, Some (1 - cosine_distance v q)%Q)
          /\ document_slot (vector_dims q) r = Some v
          /\ (threshold <= 1 - cosine_distance v q)%Q).
Proof.
  intros Hs. split; [|split].
  - apply search_similar_documents_ok in Hs. destruct Hs as (_ & _ & ->).
    unfold ranked_by_similarity.
    eapply map_sorted; [|apply exact_scan_ranked].
    intros a b Hab. exact Hab.
  - apply search_similar_documents_ok in Hs. destruct Hs as (_ & Hlim & ->).
    rewrite length_map. now apply exact_scan_length.
  - intros h Hh. eapply search_similar_documents_in; eauto.
Qed.

Lemma search_similar_code_examples_steps
    (cosine_distance : vector -> vector -> Q) (db : database) (q : vector)
    (threshold : Q) (lim : Z) (hits : list code_match) :
  search_similar_code_examples cosine_distance db q threshold lim = Ok hits ->
  code_ranked_by_similarity hits
  /\ Z.of_nat (List.length hits) <= lim
  /\ (forall h, In h hits ->
        exists r v,
          In r (code_examples db)
          /\ h = code_example_select_list
                   (r, Some (1 - cosine_distance v q)%Q)
          /\ code_example_slot (vector_dims q) r = Some v
          /\ (threshold <= 1 - cosine_distance v q)%Q).
Proof.
  intros Hs. apply search_similar_code_examples_ok in Hs.
  destruct Hs as (_ & Hlim & ->). split; [|split].
  - unfold code_ranked_by_similarity.
    eapply map_sorted; [|apply exact_scan_ranked].
    intros a b Hab. exact Hab.
  - rewrite length_map. now apply exact_scan_length.
  - intros h Hh.
    apply in_map_iff in Hh. destruct Hh as ([r s] & <- & Hin).
    apply exact_scan_in in Hin. destruct Hin as (Hr & v & Hv & -> & Hle).
    exists r, v. auto.
Qed.




(** * Further properties of the search functions *)

(** X1: whatever [search_similar_code_examples] returns is ranked by
    descending similarity, has at most [max_results] rows, and every row
    of it is the select list of a stored code example whose slot of the
    query's dimension is populated, scored 1 minus the distance of that
    slot, at or above the threshold. *)
Theorem search_similar_code_examples_sound
    (cosine_distance : vector -> vector -> Q) (db : database) (q : vector)
    (threshold : Q) (lim : Z) (hits : list code_match) :
  search_similar_code_examples cosine_distance db q threshold lim = Ok hits ->
  code_ranked_by_similarity hits
  /\ Z.of_nat (List.length hits) <= lim
  /\ (forall h, In h hits ->
        exists r v,
          In r (code_examples db)
          /\ h = code_example_select_list
                   (r, Some (1 - cosine_distance v q)%Q)
          /\ code_example_slot (vector_dims q) r = Some v
          /\ (threshold <= 1 - cosine_distance v q)%Q).
Proof.
  intros Hs. apply search_similar_code_examples_ok in Hs.
  destruct Hs as (_ & Hlim & ->). split; [|split].
  - unfold code_ranked_by_similarity.
    eapply map_sorted; [|apply exact_scan_ranked].
    intros a b Hab. exact Hab.
  - rewrite length_map. now apply exact_scan_length.
  - intros h Hh.
    apply in_map_iff in Hh. destruct Hh as ([r s] & <- & Hin).
    apply exact_scan_in in Hin. destruct Hin as (Hr & v & Hv & -> & Hle).
    exists r, v. auto.
Qed.

Lemma search_similar_code_examples_sound_witness :
  code_ranked_by_similarity
    [sample_code_match 2 (19 # 20); sample_code_match 1 (9 # 10)]
  /\ Z.of_nat (List.length
                 [sample_code_match 2 (19 # 20);
                  sample_code_match 1 (9 # 10)]) <= 10
  /\ (forall h,
        In h [sample_code_match 2 (19 # 20); sample_code_match 1 (9 # 10)] ->
        exists r v,
          In r (code_examples sample_code_db)
          /\ h = code_example_select_list
                   (r, Some (1 - unit_cosine_distance v query_768)%Q)
          /\ code_example_slot (vector_dims query_768) r = Some v
          /\ (7 # 10 <= 1 - unit_cosine_distance v query_768)%Q).
Proof.
  apply (search_similar_code_examples_sound unit_cosine_distance
           sample_code_db query_768 (7 # 10) 10).
  vm_compute. reflexivity.
Defined.

Lemma registry_accepts (dimension : option Z) (name : string) :
  get_embedding_column_name dimension = Ok name <->
  exists d,
    dimension = Some d /\ is_supported d = true
    /\ name = String.append "embedding_" (format_s dimension).
Proof.
  split.
  - unfold get_embedding_column_name.
    destruct dimension as [d|]; cbn [case_when]; [|discriminate].
    destruct (Z.eqb_spec d 768) as [->|H1];
      [intros [= <-]; exists 768; auto|].
    destruct (Z.eqb_spec d 1024) as [->|H2];
      [intros [= <-]; exists 1024; auto|].
    destruct (Z.eqb_spec d 1536) as [->|H3];
      [intros [= <-]; exists 1536; auto|].
    destruct (Z.eqb_spec d 3072) as [->|H4];
      [intros [= <-]; exists 3072; auto|].
    discriminate.
  - intros (d & Hd & Hsup & Hn). subst dimension name.
    apply is_supported_cases in Hsup.
    destruct Hsup as [-> | [-> | [-> | ->]]]; reflexivity.
Qed.

Lemma detect_supported (q : vector) :
  is_supported (vector_dims q) = true ->
  detect_embedding_dimension q = Some (vector_dims q).
Proof.
  destruct q; [discriminate|reflexivity].
Qed.

(** X2: a search returns rows exactly on the queries the Registry
    accepts, given a non-negative limit, although it never calls the
    Registry; and the column name it formats is then the Registry's. *)
Theorem search_succeeds_iff_registry_accepts
    (cosine_distance : vector -> vector -> Q) (db : database) (q : vector)
    (threshold : Q) (lim : Z) :
  ((exists hits,
      search_similar_documents cosine_distance db q threshold lim = Ok hits)
   <-> (exists name,
          get_embedding_column_name (detect_embedding_dimension q) = Ok name)
       /\ 0 <= lim)
  /\ ((exists hits,
         search_similar_code_examples cosine_distance db q threshold lim
         = Ok hits)
      <-> (exists name,
             get_embedding_column_name (detect_embedding_dimension q)
             = Ok name)
          /\ 0 <= lim)
  /\ (forall name,
        get_embedding_column_name (detect_embedding_dimension q) = Ok name ->
        name = score_column
                 (format_similarity_query
                    (detect_embedding_dimension q)
                    (detect_embedding_dimension q)
                    (detect_embedding_dimension q)
                    (detect_embedding_dimension q))).
Proof.
  assert (Hreg : (exists name,
                    get_embedding_column_name (detect_embedding_dimension q)
                    = Ok name)
                 <-> is_supported (vector_dims q) = true).
  { split.
    - intros (name & Hn). apply registry_accepts in Hn.
      destruct Hn as (d & Hd & Hsup & _).
      apply detect_embedding_dimension_some in Hd. now subst d.
    - intros Hsup. eexists. apply registry_accepts.
      exists (vector_dims q). rewrite (detect_supported _ Hsup). auto. }
  split; [|split].
  - rewrite Hreg, search_similar_documents_cases.
    destruct (is_supported (vector_dims q)).
    + destruct (Z.ltb_spec lim 0).
      * split; [now intros (hits & [=])|]. intros [_ H']. lia.
      * split; [auto|]. intros _. eauto.
    + split; [now intros (hits & [=])|]. now intros [[=] _].
  - rewrite Hreg, search_similar_code_examples_cases.
    destruct (is_supported (vector_dims q)).
    + destruct (Z.ltb_spec lim 0).
      * split; [now intros (hits & [=])|]. intros [_ H']. lia.
      * split; [auto|]. intros _. eauto.
    + split; [now intros (hits & [=])|]. now intros [[=] _].
  - intros name Hn. apply registry_accepts in Hn.
    now destruct Hn as (d & _ & _ & ->).
Qed.

Lemma search_succeeds_iff_registry_accepts_witness :
  "embedding_768"
  = score_column
      (format_similarity_query
         (detect_embedding_dimension query_768)
         (detect_embedding_dimension query_768)
         (detect_embedding_dimension query_768)
         (detect_embedding_dimension query_768)).
Proof.
  apply (proj2 (proj2 (search_succeeds_iff_registry_accepts
                         unit_cosine_distance scenario_db query_768
                         (7 # 10) 10))).
  vm_compute. reflexivity.
Defined.

(** X3: on a query of a provisioned dimension, a negative [max_results]
    is not read as "no rows": both functions raise the LIMIT error; with
    [max_results] 0 they return the empty list. *)
Theorem search_limit_edges
    (cosine_distance : vector -> vector -> Q) (db : database) (q : vector)
    (threshold : Q) :
  is_supported (vector_dims q) = true ->
  (forall lim, lim < 0 ->
     search_similar_documents cosine_distance db q threshold lim
     = Error InvalidRowCountInLimit
     /\ search_similar_code_examples cosine_distance db q threshold lim
        = Error InvalidRowCountInLimit)
  /\ search_similar_documents cosine_distance db q threshold 0 = Ok []
  /\ search_similar_code_examples cosine_distance db q threshold 0 = Ok [].
Proof.
  intros Hsup. split; [|split].
  - intros lim Hlim.
    rewrite search_similar_documents_cases,
      search_similar_code_examples_cases, Hsup.
    destruct (Z.ltb_spec lim 0); [auto|lia].
  - now rewrite search_similar_documents_cases, Hsup.
  - now rewrite search_similar_code_examples_cases, Hsup.
Qed.

Lemma search_limit_edges_witness :
  search_similar_documents unit_cosine_distance scenario_db query_768
    (7 # 10) (-1)
  = Error InvalidRowCountInLimit
  /\ search_similar_code_examples unit_cosine_distance scenario_db query_768
       (7 # 10) (-1)
     = Error InvalidRowCountInLimit.
Proof.
  apply (proj1 (search_limit_edges unit_cosine_distance scenario_db
                  query_768 (7 # 10) eq_refl)).
  lia.
Defined.

Lemma document_slot_in_bucket (d : Z) (r : document) (v : vector) :
  document_slot d r = Some v -> is_supported d = true.
Proof.
  unfold document_slot. rewrite is_supported_cases.
  destruct (Z.eqb_spec d 768); [auto|].
  destruct (Z.eqb_spec d 1024); [auto|].
  destruct (Z.eqb_spec d 1536); [auto|].
  destruct (Z.eqb_spec d 3072); [auto|discriminate].
Qed.

(** The only provisioned dimension of [documents] that resolves to the
    exact strategy is 3072. *)
Lemma documents_exact_bucket (d : Z) :
  is_supported d = true ->
  bucket_strategy "documents" d = exact ->
  d = 3072.
Proof.
  intros Hsup Hex. apply is_supported_cases in Hsup.
  destruct Hsup as [-> | [-> | [-> | ->]]];
    [vm_compute in Hex; discriminate Hex ..|reflexivity].
Qed.

(** X4: in a bucket without index (exact strategy: every populated row
    is scanned), with a limit that covers the table, no match is left
    out: every stored document whose slot of the query's dimension
    scores at or above the threshold is returned, with that score. *)
Theorem search_returns_every_match
    (cosine_distance : vector -> vector -> Q) (db : database) (q : vector)
    (threshold : Q) (lim : Z) (r : document) (v : vector) :
  bucket_strategy "documents" (vector_dims q) = exact ->
  Z.of_nat (List.length (documents db)) <= lim ->
  In r (documents db) ->
  document_slot (vector_dims q) r = Some v ->
  (threshold <= 1 - cosine_distance v q)%Q ->
  exists hits,
    search_similar_documents cosine_distance db q threshold lim = Ok hits
    /\ In (document_select_list (r, Some (1 - cosine_distance v q)%Q)) hits.
Proof.
  intros Hex Hlim Hr Hv Hle.
  pose proof (documents_exact_bucket _
                (document_slot_in_bucket _ _ _ Hv) Hex) as Hq.
  rewrite Hq in Hv.
  rewrite search_similar_documents_cases, Hq.
  change (is_supported 3072) with true. cbv iota.
  destruct (Z.ltb_spec lim 0); [lia|].
  eexists. split; [reflexivity|].
  apply in_map. apply exact_scan_complete; assumption.
Qed.

Lemma search_returns_every_match_witness :
  exists hits,
    search_similar_documents unit_cosine_distance mixed_db query_3072
      (7 # 10) 10 = Ok hits
    /\ In (document_select_list
             (sample_document 7 None None None (Some query_3072),
              Some (1 - unit_cosine_distance query_3072 query_3072)%Q))
         hits.
Proof.
  apply (search_returns_every_match unit_cosine_distance mixed_db
           query_3072 (7 # 10) 10
           (sample_document 7 None None None (Some query_3072)) query_3072).
  - vm_compute. reflexivity.
  - vm_compute. discriminate.
  - simpl. right. left. reflexivity.
  - reflexivity.
  - vm_compute. discriminate.
Defined.



(** The sort is stable, so it commutes with dropping rows. *)
Lemma insert_by_head {A : Type} (key : A -> option Q) (x : A) (l : list A) :
  Forall (fun z => key_le (key x) (key z) = true) l ->
  insert_by key x l = x :: l.
Proof.
  destruct 1 as [|z t Hz Ht]; cbn; [reflexivity|]. now rewrite Hz.
Qed.

Lemma insert_by_filter {A : Type} (key : A -> option Q) (p : A -> bool)
    (x : A) (l : list A) :
  StronglySorted (key_ordered key) l ->
  filter p (insert_by key x l)
  = if p x then insert_by key x (filter p l) else filter p l.
Proof.
  induction 1 as [|y l Hs IH Hy]; cbn.
  - now destruct (p x).
  - destruct (key_le (key x) (key y)) eqn:E; cbn.
    + destruct (p x) eqn:Px, (p y) eqn:Py; cbn; rewrite ?E; try reflexivity.
      symmetry. apply insert_by_head.
      rewrite Forall_forall in *. intros z Hz.
      apply filter_In in Hz. destruct Hz as [Hz _].
      eapply key_le_trans; [exact E|]. now apply Hy.
    + rewrite IH. destruct (p x), (p y); cbn; rewrite ?E; reflexivity.
Qed.

Lemma order_by_filter {A : Type} (key : A -> option Q) (p : A -> bool)
    (l : list A) :
  filter p (order_by key l) = order_by key (filter p l).
Proof.
  induction l as [|x l IH]; cbn; [reflexivity|].
  rewrite insert_by_filter by apply order_by_sorted.
  destruct (p x); cbn; now rewrite IH.
Qed.

(** On a sorted list, a test that passes everything before a passing
    element keeps a prefix. *)
Lemma filter_sorted_prefix {A : Type} (R : A -> A -> Prop) (p : A -> bool)
    (l : list A) :
  (forall a b, R a b -> p b = true -> p a = true) ->
  StronglySorted R l ->
  filter p l = firstn (List.length (filter p l)) l.
Proof.
  intros Hp. induction 1 as [|x l Hs IH Hx]; cbn; [reflexivity|].
  destruct (p x) eqn:Px; cbn.
  - now rewrite <- IH.
  - assert (Hnone : filter p l = []).
    { clear IH Hs. induction l as [|y l IHl]; cbn; [reflexivity|].
      inversion Hx as [|? ? Hxy Hx']; subst.
      destruct (p y) eqn:Py.
      - rewrite (Hp x y Hxy Py) in Px. discriminate.
      - now apply IHl. }
    now rewrite Hnone.
Qed.

Lemma filter_filter_implied {A : Type} (p1 p2 : A -> bool) (l : list A) :
  (forall a, p2 a = true -> p1 a = true) ->
  filter p2 (filter p1 l) = filter p2 l.
Proof.
  intros H. induction l as [|x l IH]; cbn; [reflexivity|].
  destruct (p1 x) eqn:P1; cbn; rewrite IH; [reflexivity|].
  destruct (p2 x) eqn:P2; [|reflexivity].
  rewrite (H x P2) in P1. discriminate.
Qed.

Lemma firstn_prefix_comm {A : Type} (n k : nat) (l : list A) :
  firstn n (firstn k l) = firstn k (firstn n l).
Proof. now rewrite !firstn_firstn, Nat.min_comm. Qed.

Section ThresholdFacts.
Variable cosine_distance : vector -> vector -> Q.
Context {row : Type}.
Variable slot : row -> option vector.

Lemma exact_scan_threshold_prefix (tbl : list row) (q : vector)
    (t1 t2 : Q) (lim : Z) :
  (t1 <= t2)%Q ->
  exists k,
    exact_scan cosine_distance slot tbl q t2 lim
    = firstn k (exact_scan cosine_distance slot tbl q t1 lim).
Proof.
  intros Ht. unfold exact_scan.
  set (key := fun r => distance cosine_distance (slot r) q).
  set (p1 := fun r => passes_threshold cosine_distance q t1 (slot r)).
  set (p2 := fun r => passes_threshold cosine_distance q t2 (slot r)).
  assert (H21 : forall a, p2 a = true -> p1 a = true).
  { intros a. unfold p1, p2, passes_threshold.
    destruct (slot a) as [v|]; [|discriminate].
    rewrite !Qle_bool_iff. intros H. now apply Qle_trans with t2. }
  assert (Hdown : forall a b, key_ordered key a b -> p2 b = true -> p2 a = true).
  { intros a b. unfold key_ordered, key, p2, passes_threshold, distance.
    destruct (slot b) as [vb|]; [|discriminate].
    destruct (slot a) as [va|]; cbn; [|discriminate].
    rewrite !Qle_bool_iff. intros Hab Hb. lra. }
  rewrite <- (filter_filter_implied p1 p2 tbl H21).
  rewrite <- order_by_filter.
  rewrite (filter_sorted_prefix (key_ordered key) p2 _ Hdown
             (order_by_sorted key (filter p1 tbl))).
  eexists. rewrite firstn_prefix_comm, firstn_map. reflexivity.
Qed.
End ThresholdFacts.



Lemma firstn_nodup {A : Type} (n : nat) (l : list A) :
  NoDup l -> NoDup (firstn n l).
Proof.
  intros H. rewrite <- (firstn_skipn n l) in H.
  now apply NoDup_app_remove_r in H.
Qed.

Lemma exact_scan_keys_nodup {row : Type}
    (cosine_distance : vector -> vector -> Q) (row_id : row -> uuid)
    (slot : row -> option vector) (tbl : list row) (q : vector)
    (threshold : Q) (lim : Z) :
  NoDup (table_keys row_id tbl) ->
  NoDup (map (fun rs => row_id (fst rs))
           (exact_scan cosine_distance slot tbl q threshold lim)).
Proof.
  intros Hnd. unfold exact_scan. rewrite map_map. cbn.
  change (map (fun r => row_id r)) with (map row_id).
  rewrite <- firstn_map. apply firstn_nodup.
  eapply Permutation_NoDup.
  - symmetry. apply Permutation_map. apply order_by_perm.
  - now apply filter_keys_nodup.
Qed.

(** X7: a search on a stored table returns no row twice: the ids of the
    result are pairwise distinct (both functions). *)
Theorem search_returns_distinct_ids
    (cosine_distance : vector -> vector -> Q)
    (doc_script : list (dml document))
    (code_script : list (dml code_example))
    (db : database) (q : vector) (threshold : Q) (lim : Z) :
  documents_after doc_script = Ok (documents db) ->
  code_examples_after code_script = Ok (code_examples db) ->
  (forall hits,
     search_similar_documents cosine_distance db q threshold lim = Ok hits ->
     NoDup (map document_id hits))
  /\ (forall hits,
        search_similar_code_examples cosine_distance db q threshold lim
        = Ok hits ->
        NoDup (map code_id hits)).
Proof.
  intros Hdocs Hcodes.
  apply documents_after_valid in Hdocs. destruct Hdocs as [Hnd1 _].
  apply code_examples_after_valid in Hcodes. destruct Hcodes as [Hnd2 _].
  split; intros hits Hs.
  - apply search_similar_documents_ok in Hs. destruct Hs as (_ & _ & ->).
    rewrite map_map. cbn. now apply exact_scan_keys_nodup.
  - apply search_similar_code_examples_ok in Hs. destruct Hs as (_ & _ & ->).
    rewrite map_map. cbn. now apply exact_scan_keys_nodup.
Qed.

Lemma search_returns_distinct_ids_witness :
  NoDup (map document_id [sample_match 2 1; sample_match 1 1]).
Proof.
  refine (proj1 (search_returns_distinct_ids unit_cosine_distance
                   tie_script [] tie_db query_768 (7 # 10) 10
                   _ _) _ _).
  - vm_compute. reflexivity.
  - vm_compute. reflexivity.
  - vm_compute. reflexivity.
Defined.

(** X8: the utility functions recover the column of a stored vector: for
    a vector held in the slot of dimension d of a stored document,
    [detect_embedding_dimension] returns d, the Registry maps that to a
    column name, and that column of the row holds the vector. *)
Theorem stored_vector_resolves_to_its_column
    (script : list (dml document)) (tbl : list document) (r : document)
    (d : Z) (v : vector) :
  documents_after script = Ok tbl -> In r tbl ->
  document_slot d r = Some v ->
  detect_embedding_dimension v = Some d
  /\ exists name col,
       get_embedding_column_name (detect_embedding_dimension v) = Ok name
       /\ documents_vector_column name = Some col
       /\ col r = Some v.
Proof.
  intros Hstored Hr Hv.
  apply documents_after_valid in Hstored. destruct Hstored as [_ Hck].
  rewrite Forall_forall in Hck.
  pose proof (document_slot_dims r d v (Hck r Hr) Hv) as Hd.
  pose proof (document_slot_in_bucket d r v Hv) as Hsup.
  assert (Hdet : detect_embedding_dimension v = Some d).
  { rewrite <- Hd in Hsup |- *. now apply detect_supported. }
  split; [exact Hdet|].
  exists (String.append "embedding_" (format_s (Some d))), (document_slot d).
  rewrite Hdet. split; [|split].
  - apply registry_accepts. exists d. auto.
  - rewrite documents_column_resolution. now rewrite Hsup.
  - exact Hv.
Qed.

Lemma stored_vector_resolves_to_its_column_witness :
  detect_embedding_dimension vec_A = Some 768
  /\ exists name col,
       get_embedding_column_name (detect_embedding_dimension vec_A) = Ok name
       /\ documents_vector_column name = Some col
       /\ col (sample_document 1 (Some vec_A) None None None) = Some vec_A.
Proof.
  apply (stored_vector_resolves_to_its_column scenario_script
           (documents scenario_db)
           (sample_document 1 (Some vec_A) None None None) 768 vec_A).
  - vm_compute. reflexivity.
  - simpl. left. reflexivity.
  - reflexivity.
Defined.

(** X9: in a bucket without index (exact strategy: every populated row
    is scanned) a stored vector finds its own row: searching a stored
    table with the vector that one of its rows holds in such a slot as
    the query, a threshold at most that vector's similarity to itself
    and a limit that covers the table, returns that row, scored with
    that self-similarity. *)
Theorem stored_vector_finds_itself
    (cosine_distance : vector -> vector -> Q)
    (script : list (dml document)) (db : database) (r : document) (d : Z)
    (v : vector) (threshold : Q) (lim : Z) :
  documents_after script = Ok (documents db) ->
  In r (documents db) ->
  document_slot d r = Some v ->
  bucket_strategy "documents" d = exact ->
  (threshold <= 1 - cosine_distance v v)%Q ->
  Z.of_nat (List.length (documents db)) <= lim ->
  exists hits,
    search_similar_documents cosine_distance db v threshold lim = Ok hits
    /\ In (document_select_list (r, Some (1 - cosine_distance v v)%Q)) hits.
Proof.
  intros Hstored Hr Hv Hex Hle Hlim.
  apply documents_after_valid in Hstored. destruct Hstored as [_ Hck].
  rewrite Forall_forall in Hck.
  pose proof (document_slot_dims r d v (Hck r Hr) Hv) as Hd.
  pose proof (documents_exact_bucket d
                (document_slot_in_bucket _ _ _ Hv) Hex) as ->.
  rewrite search_similar_documents_cases, Hd.
  change (is_supported 3072) with true. cbv iota.
  destruct (Z.ltb_spec lim 0); [lia|].
  eexists. split; [reflexivity|].
  apply in_map. apply exact_scan_complete; assumption.
Qed.

Lemma stored_vector_finds_itself_witness :
  exists hits,
    search_similar_documents unit_cosine_distance mixed_db query_3072
      (7 # 10) 10 = Ok hits
    /\ In (document_select_list
             (sample_document 7 None None None (Some query_3072),
              Some (1 - unit_cosine_distance query_3072 query_3072)%Q))
         hits.
Proof.
  apply (stored_vector_finds_itself unit_cosine_distance mixed_script
           mixed_db (sample_document 7 None None None (Some query_3072))
           3072 query_3072 (7 # 10) 10).
  - vm_compute. reflexivity.
  - simpl. right. left. reflexivity.
  - reflexivity.
  - vm_compute. reflexivity.
  - vm_compute. discriminate.
  - vm_compute. discriminate.
Defined.

(** * Default configuration values *)

Lemma has_setting_key_app (a b : list archon_setting) (k : string) :
  has_setting_key (a ++ b) k = has_setting_key a k || has_setting_key b k.
Proof. apply existsb_app. Qed.

Lemma has_setting_key_in (tbl : list archon_setting) (k : string) :
  has_setting_key tbl k = true <-> In k (map setting_key tbl).
Proof.
  unfold has_setting_key. rewrite existsb_exists, in_map_iff.
  split; intros (s & H1 & H2).
  - apply String.eqb_eq in H2. eauto.
  - exists s. split; [exact H2|]. now apply String.eqb_eq.
Qed.

Section SettingsFacts.
Variable uuid_generate_v4 : nat -> uuid.
Variable now : Z.

Lemma insert_on_conflict_do_nothing_spec (rows : list setting_values) :
  forall (n : nat) (tbl tbl' : list archon_setting),
    insert_on_conflict_do_nothing uuid_generate_v4 now n rows tbl = Ok tbl' ->
    exists added,
      tbl' = tbl ++ added
      /\ (forall s, In s added ->
            exists m v,
              In v rows /\ s = new_setting uuid_generate_v4 now m v
              /\ has_setting_key tbl (values_key v) = false)
      /\ (forall v, In v rows -> has_setting_key tbl' (values_key v) = true)
      /\ (NoDup (map setting_key tbl) -> NoDup (map setting_key tbl')).
Proof.
  induction rows as [|v rest IH]; cbn [insert_on_conflict_do_nothing];
    intros n tbl tbl' Hins.
  - injection Hins as <-. exists []. rewrite app_nil_r.
    repeat split; auto; intros ? [].
  - destruct (has_setting_key tbl (values_key v)) eqn:Hk.
    + destruct (IH _ _ _ Hins) as (added & -> & Hadd & Hall & Hnd).
      exists added. split; [reflexivity|]. split; [|split].
      * intros s Hs. destruct (Hadd s Hs) as (m & v' & Hv' & -> & Hk').
        exists m, v'. split; [now right|]. auto.
      * intros v' [<-|Hv']; [|now apply Hall].
        rewrite has_setting_key_app, Hk. reflexivity.
      * exact Hnd.
    + destruct (has_setting_id tbl (uuid_generate_v4 n)); [discriminate|].
      destruct (IH _ _ _ Hins) as (added & -> & Hadd & Hall & Hnd).
      exists (new_setting uuid_generate_v4 now n v :: added).
      split; [now rewrite <- app_assoc|]. split; [|split].
      * intros s [<-|Hs].
        { exists n, v. split; [now left|]. auto. }
        destruct (Hadd s Hs) as (m & v' & Hv' & -> & Hk').
        exists m, v'. split; [now right|]. split; [reflexivity|].
        rewrite has_setting_key_app in Hk'.
        now apply Bool.orb_false_iff in Hk'.
      * intros v' [<-|Hv']; [|now apply Hall].
        rewrite !has_setting_key_app. cbn.
        rewrite String.eqb_refl. cbn. now rewrite Bool.orb_true_r.
      * intros Hnd0. apply Hnd. rewrite map_app. cbn.
        apply Permutation_NoDup
          with (l := values_key v :: map setting_key tbl).
        { apply Permutation_cons_append. }
        constructor; [|exact Hnd0].
        intros Hin. apply has_setting_key_in in Hin. congruence.
Qed.

Lemma insert_on_conflict_do_nothing_present (rows : list setting_values) :
  forall (n : nat) (tbl : list archon_setting),
    (forall v, In v rows -> has_setting_key tbl (values_key v) = true) ->
    insert_on_conflict_do_nothing uuid_generate_v4 now n rows tbl = Ok tbl.
Proof.
  induction rows as [|v rest IH]; cbn [insert_on_conflict_do_nothing];
    intros n tbl Hall; [reflexivity|].
  rewrite (Hall v (or_introl eq_refl)).
  apply IH. intros v' Hv'. apply Hall. now right.
Qed.

Lemma insert_on_conflict_do_nothing_contents (rows : list setting_values) :
  forall (n : nat) (tbl tbl' : list archon_setting),
    insert_on_conflict_do_nothing uuid_generate_v4 now n rows tbl = Ok tbl' ->
    map setting_content tbl'
    = insert_contents rows (map setting_content tbl).
Proof.
  induction rows as [|v rest IH]; cbn [insert_on_conflict_do_nothing
                                       insert_contents];
    intros n tbl tbl' Hins.
  - now injection Hins as <-.
  - assert (Hkey : existsb
                     (fun c => String.eqb (content_key c) (values_key v))
                     (map setting_content tbl)
                   = has_setting_key tbl (values_key v)).
    { unfold has_setting_key. clear.
      induction tbl as [|s t IHt]; cbn; [reflexivity|]. now rewrite IHt. }
    rewrite Hkey.
    destruct (has_setting_key tbl (values_key v)).
    + eapply IH; eauto.
    + destruct (has_setting_id tbl (uuid_generate_v4 n)); [discriminate|].
      rewrite (IH _ _ _ Hins), map_app. reflexivity.
Qed.
End SettingsFacts.

Lemma insert_on_conflict_do_nothing_succeeds
    (uuid_generate_v4 : nat -> uuid) (now : Z) (rows : list setting_values) :
  (forall a b, uuid_generate_v4 a = uuid_generate_v4 b -> a = b) ->
  forall (n : nat) (tbl : list archon_setting),
    (forall m, (n <= m)%nat ->
               has_setting_id tbl (uuid_generate_v4 m) = false) ->
    exists tbl',
      insert_on_conflict_do_nothing uuid_generate_v4 now n rows tbl = Ok tbl'.
Proof.
  intros Hinj.
  induction rows as [|v rest IH]; cbn [insert_on_conflict_do_nothing];
    intros n tbl Hfresh; [eauto|].
  destruct (has_setting_key tbl (values_key v)).
  - apply IH. intros m Hm. apply Hfresh. lia.
  - rewrite (Hfresh n (Nat.le_refl n)).
    apply IH. intros m Hm. unfold has_setting_id.
    rewrite existsb_app. cbn. rewrite Bool.orb_false_r.
    apply Bool.orb_false_iff. split; [apply Hfresh; lia|].
    apply N.eqb_neq. intros E. apply Hinj in E. lia.
Qed.

(** X10: the INSERT ... ON CONFLICT (key) DO NOTHING of either script
    leaves every row of the settings table as it is, in place: it only
    appends, and only rows of its VALUES list whose key the table did not
    have, with the listed value, category and description.  Afterwards
    every listed key is present, and keys that were unique stay unique.
    With uuids that are fresh it succeeds. *)
Theorem default_configuration_only_adds_missing
    (uuid_generate_v4 : nat -> uuid) (now : Z) (rows : list setting_values)
    (tbl : list archon_setting) :
  (forall tbl',
     insert_on_conflict_do_nothing uuid_generate_v4 now 0 rows tbl = Ok tbl' ->
     exists added,
       tbl' = tbl ++ added
       /\ (forall s, In s added ->
             has_setting_key tbl (setting_key s) = false
             /\ exists v,
                  In v rows
                  /\ setting_content s = setting_content_of_values v)
       /\ (forall v, In v rows ->
             has_setting_key tbl' (values_key v) = true)
       /\ (NoDup (map setting_key tbl) -> NoDup (map setting_key tbl')))
  /\ ((forall a b, uuid_generate_v4 a = uuid_generate_v4 b -> a = b) ->
      (forall m, has_setting_id tbl (uuid_generate_v4 m) = false) ->
      exists tbl',
        insert_on_conflict_do_nothing uuid_generate_v4 now 0 rows tbl
        = Ok tbl').
Proof.
  split.
  - intros tbl' Hins.
    destruct (insert_on_conflict_do_nothing_spec _ _ _ _ _ _ Hins)
      as (added & -> & Hadd & Hall & Hnd).
    exists added. split; [reflexivity|]. split; [|split]; auto.
    intros s Hs. destruct (Hadd s Hs) as (m & v & Hv & -> & Hk).
    split; [exact Hk|]. exists v. split; [exact Hv|reflexivity].
  - intros Hinj Hfresh.
    apply insert_on_conflict_do_nothing_succeeds; auto.
Qed.

Lemma default_configuration_only_adds_missing_witness :
  exists added,
    sample_settings_after = sample_settings ++ added
    /\ (forall s, In s added ->
          has_setting_key sample_settings (setting_key s) = false
          /\ exists v,
               In v default_configuration
               /\ setting_content s = setting_content_of_values v)
    /\ (forall v, In v default_configuration ->
          has_setting_key sample_settings_after (values_key v) = true)
    /\ (NoDup (map setting_key sample_settings) ->
        NoDup (map setting_key sample_settings_after)).
Proof.
  apply (proj1 (default_configuration_only_adds_missing sample_uuids 50
                  default_configuration sample_settings)).
  vm_compute. reflexivity.
Defined.

(** X11: running a script's INSERT of defaults again changes nothing and
    cannot fail, whatever uuids and time the second run draws. *)
Theorem default_configuration_idempotent
    (uuid_generate_v4 uuid_generate_v4' : nat -> uuid) (now now' : Z)
    (tbl tbl' : list archon_setting) :
  (complete_setup_settings uuid_generate_v4 now tbl = Ok tbl' ->
   complete_setup_settings uuid_generate_v4' now' tbl' = Ok tbl')
  /\ (base_schema_settings uuid_generate_v4 now tbl = Ok tbl' ->
      base_schema_settings uuid_generate_v4' now' tbl' = Ok tbl').
Proof.
  split; intros Hins;
    apply insert_on_conflict_do_nothing_present;
    destruct (insert_on_conflict_do_nothing_spec _ _ _ _ _ _ Hins)
      as (added & _ & _ & Hall & _);
    exact Hall.
Qed.

Lemma insert_contents_app (l1 l2 : list setting_values) :
  forall cs,
    insert_contents (l1 ++ l2) cs = insert_contents l2 (insert_contents l1 cs).
Proof.
  induction l1 as [|v l1 IH]; cbn; intros cs; [reflexivity|].
  destruct (existsb _ cs); apply IH.
Qed.

Lemma insert_contents_spec (rows : list setting_values) :
  forall cs,
    (exists added, insert_contents rows cs = cs ++ added)
    /\ forall v, In v rows ->
         existsb (fun c => String.eqb (content_key c) (values_key v))
           (insert_contents rows cs) = true.
Proof.
  induction rows as [|v rest IH]; cbn [insert_contents]; intros cs.
  - split; [exists []; now rewrite app_nil_r|]. intros v [].
  - destruct (existsb
                (fun c => String.eqb (content_key c) (values_key v)) cs)
      eqn:Hk.
    + destruct (IH cs) as [[added Hadd] Hall]. split; [eauto|].
      intros v' [<-|Hv']; [|now apply Hall].
      rewrite Hadd, existsb_app, Hk. reflexivity.
    + destruct (IH (cs ++ [setting_content_of_values v]))
        as [[added Hadd] Hall].
      split; [exists (setting_content_of_values v :: added);
              now rewrite Hadd, <- app_assoc|].
      intros v' [<-|Hv']; [|now apply Hall].
      rewrite Hadd, !existsb_app. cbn.
      unfold content_key, setting_content_of_values, values_key. cbn.
      rewrite String.eqb_refl. cbn. now rewrite Bool.orb_true_r.
Qed.

Lemma insert_contents_present (rows : list setting_values) :
  forall cs,
    (forall v, In v rows ->
       existsb (fun c => String.eqb (content_key c) (values_key v)) cs
       = true) ->
    insert_contents rows cs = cs.
Proof.
  induction rows as [|v rest IH]; cbn [insert_contents]; intros cs Hall;
    [reflexivity|].
  rewrite (Hall v (or_introl eq_refl)).
  apply IH. intros v' Hv'. apply Hall. now right.
Qed.

(** X12: [complete_setup.sql] run after [00_base_schema.sql] leaves the
    same settings as [complete_setup.sql] run alone, on any table: the
    same rows in the same order, up to the generated uuids and
    timestamps. *)
Theorem complete_setup_after_base_schema
    (ids1 ids2 ids3 : nat -> uuid) (now1 now2 now3 : Z)
    (tbl t1 t2 t3 : list archon_setting) :
  base_schema_settings ids1 now1 tbl = Ok t1 ->
  complete_setup_settings ids2 now2 t1 = Ok t2 ->
  complete_setup_settings ids3 now3 tbl = Ok t3 ->
  map setting_content t2 = map setting_content t3.
Proof.
  intros H1 H2 H3.
  apply insert_on_conflict_do_nothing_contents in H1, H2, H3.
  rewrite H2, H3, H1.
  change default_configuration
    with (base_default_configuration
            ++ [ ("SUPPORTED_EMBEDDING_DIMENSIONS", "768,1024,1536,3072",
                  "embeddings", "Supported embedding dimensions");
                 ("DEFAULT_EMBEDDING_DIMENSION", "1536", "embeddings",
                  "Default embedding dimension for new content") ]).
  rewrite !insert_contents_app. f_equal.
  apply insert_contents_present.
  apply insert_contents_spec.
Qed.

Lemma default_configuration_idempotent_witness :
  complete_setup_settings (fun n => N.of_nat n) 77 sample_settings_after
  = Ok sample_settings_after.
Proof.
  apply (proj1 (default_configuration_idempotent sample_uuids
                  (fun n => N.of_nat n) 50 77
                  sample_settings sample_settings_after)).
  vm_compute. reflexivity.
Defined.

Lemma complete_setup_after_base_schema_witness :
  map setting_content sample_settings_two_steps
  = map setting_content sample_settings_after.
Proof.
  apply (complete_setup_after_base_schema
           (fun n => N.of_nat (300 + n)) (fun n => N.of_nat (400 + n))
           sample_uuids 60 70 50 sample_settings
           sample_settings_after_base).
  - vm_compute. reflexivity.
  - vm_compute. reflexivity.
  - vm_compute. reflexivity.
Defined.

(** * Sources and cascading deletes *)

Lemma exec_dml_rows {row : Type} (row_id : row -> uuid)
    (check_row : row -> pg_result unit) (tbl tbl' : list row) (w : dml row) :
  exec_dml row_id check_row tbl w = Ok tbl' ->
  forall x, In x tbl' ->
    In x tbl \/ written_row row_id tbl w = Some x.
Proof.
  intros Hexec x Hx. destruct w as [r|k r|k]; cbn in Hexec.
  - destruct (check_row r) as [[]|e]; cbn in Hexec; [|discriminate].
    destruct (has_key row_id tbl (row_id r)); [discriminate|].
    injection Hexec as <-. apply in_app_or in Hx.
    destruct Hx as [Hx|[<-|[]]]; [now left|now right].
  - destruct (check_row r) as [[]|e]; cbn in Hexec; [|discriminate].
    destruct (has_key row_id tbl k && negb (N.eqb (row_id r) k)
              && has_key row_id tbl (row_id r)); [discriminate|].
    injection Hexec as <-. apply in_map_iff in Hx.
    destruct Hx as (old & Hx & Hold).
    destruct (N.eqb_spec (row_id old) k) as [E|E]; subst x; [|now left].
    right. cbn. replace (has_key row_id tbl k) with true; [reflexivity|].
    symmetry. apply has_key_in. rewrite <- E. now apply in_map.
  - injection Hexec as <-. apply filter_In in Hx. now left.
Qed.

Lemma has_source_in (srcs : list source) (k : uuid) :
  has_source srcs k = true <-> In k (map source_id srcs).
Proof.
  unfold has_source. rewrite existsb_exists, in_map_iff.
  split; intros (s & H1 & H2).
  - apply N.eqb_eq in H2. eauto.
  - exists s. split; [exact H2|]. now apply N.eqb_eq.
Qed.

Lemma exec_referencing_consistent {row : Type} (row_id : row -> uuid)
    (check_row : row -> pg_result unit) (row_source : row -> option uuid)
    (table : string) (srcs : list source) (tbl tbl' : list row)
    (w : dml row) :
  table_valid row_id check_row tbl ->
  Forall (fun r => references_source srcs (row_source r) = true) tbl ->
  exec_referencing row_id check_row row_source table srcs tbl w = inr tbl' ->
  table_valid row_id check_row tbl'
  /\ Forall (fun r => references_source srcs (row_source r) = true) tbl'.
Proof.
  intros Hvalid Hrefs Hexec. unfold exec_referencing in Hexec.
  destruct (exec_dml row_id check_row tbl w) as [t|e] eqn:Hdml;
    [|discriminate].
  assert (Ht : t = tbl'
               /\ forall r, written_row row_id tbl w = Some r ->
                    references_source srcs (row_source r) = true).
  { destruct (written_row row_id tbl w) as [r|].
    - unfold references_source. destruct (row_source r) as [k|] eqn:Hk.
      + destruct (has_source srcs k) eqn:Hs; [|discriminate].
        split; [congruence|]. intros r' [= <-]. now rewrite Hk.
      + split; [congruence|]. intros r' [= <-]. now rewrite Hk.
    - split; [congruence|]. discriminate. }
  destruct Ht as [<- Hwritten]. split.
  - eapply exec_dml_valid; eauto.
  - rewrite Forall_forall in *. intros x Hx.
    destruct (exec_dml_rows _ _ _ _ _ Hdml x Hx) as [Hold|Hnew]; auto.
Qed.

Lemma exec_statement_consistent (st st' : store) (s : statement) :
  store_consistent st -> exec_statement st s = inr st' ->
  store_consistent st'.
Proof.
  intros (Hsrc & Hdocs & Hcodes & Hdref & Hcref) Hexec.
  destruct s as [src|k|w|w]; cbn in Hexec.
  - destruct (has_source (sources st) (source_id src)) eqn:Hs;
      [discriminate|].
    injection Hexec as <-. unfold store_consistent. cbn.
    split; [|split; [exact Hdocs|split; [exact Hcodes|split]]].
    + rewrite map_app. cbn.
      apply Permutation_NoDup
        with (l := source_id src :: map source_id (sources st)).
      * apply Permutation_cons_append.
      * constructor; [|exact Hsrc].
        intros Hin. apply has_source_in in Hin. congruence.
    + eapply Forall_impl; [|exact Hdref]. intros d.
      unfold references_source, has_source.
      destruct (doc_source_id d); [|auto].
      rewrite existsb_app. intros ->. reflexivity.
    + eapply Forall_impl; [|exact Hcref]. intros c.
      unfold references_source, has_source.
      destruct (code_source_id c); [|auto].
      rewrite existsb_app. intros ->. reflexivity.
  - injection Hexec as <-. unfold store_consistent. cbn.
    assert (Hkeep : forall ref,
              references_source (sources st) ref = true ->
              negb (refers_to ref k) = true ->
              references_source
                (filter (fun s => negb (N.eqb (source_id s) k)) (sources st))
                ref = true).
    { intros [k'|]; cbn; [|auto]. intros Hin Hne.
      unfold has_source in *. rewrite existsb_exists in *.
      destruct Hin as (s & Hs & Hid). exists s. split; [|exact Hid].
      apply filter_In. split; [exact Hs|].
      apply N.eqb_eq in Hid. now rewrite Hid. }
    destruct Hdocs as [Hd1 Hd2], Hcodes as [Hc1 Hc2].
    rewrite Forall_forall in Hd2, Hc2, Hdref, Hcref.
    split; [|split; [|split; [|split]]].
    + clear -Hsrc. induction (sources st) as [|s l IH]; cbn; [constructor|].
      inversion Hsrc as [|? ? Hs Hl]; subst.
      destruct (negb (N.eqb (source_id s) k)); cbn; [|now apply IH].
      constructor; [|now apply IH].
      intros Hin. apply Hs. apply in_map_iff in Hin.
      destruct Hin as (y & Hy & Hin). apply filter_In in Hin.
      rewrite <- Hy. apply in_map. tauto.
    + split; [now apply filter_keys_nodup|].
      rewrite Forall_forall. intros x Hx. apply filter_In in Hx.
      now apply Hd2.
    + split; [now apply filter_keys_nodup|].
      rewrite Forall_forall. intros x Hx. apply filter_In in Hx.
      now apply Hc2.
    + rewrite Forall_forall. intros d Hd.
      apply filter_In in Hd. destruct Hd as [Hd Hne].
      apply Hkeep; auto.
    + rewrite Forall_forall. intros c Hc.
      apply filter_In in Hc. destruct Hc as [Hc Hne].
      apply Hkeep; auto.
  - destruct (exec_referencing doc_id check_document doc_source_id
                "documents" (sources st) (documents (store_tables st)) w)
      as [e|docs] eqn:Hw; [discriminate|].
    injection Hexec as <-. unfold store_consistent. cbn.
    destruct (exec_referencing_consistent _ _ _ _ _ _ _ _ Hdocs Hdref Hw).
    auto.
  - destruct (exec_referencing code_row_id check_code_example code_source_id
                "code_examples" (sources st)
                (code_examples (store_tables st)) w)
      as [e|codes] eqn:Hw; [discriminate|].
    injection Hexec as <-. unfold store_consistent. cbn.
    destruct (exec_referencing_consistent _ _ _ _ _ _ _ _ Hcodes Hcref Hw).
    auto.
Qed.

Lemma exec_statements_consistent (script : list statement) :
  forall st st',
    store_consistent st -> exec_statements st script = inr st' ->
    store_consistent st'.
Proof.
  induction script as [|s script IH]; cbn; intros st st' Hc Hexec.
  - now injection Hexec as <-.
  - destruct (exec_statement st s) as [e|st1] eqn:Hs; [discriminate|].
    eapply IH; [|exact Hexec]. eapply exec_statement_consistent; eauto.
Qed.

Lemma empty_store_consistent : store_consistent empty_store.
Proof.
  unfold store_consistent, table_valid, empty_store. cbn.
  repeat split; constructor.
Qed.

(** X13: whatever statements have run, every [source_id] of a stored
    document or code example is NULL or the id of a stored source, and
    the ids of each of the three tables are pairwise distinct. *)
Theorem references_always_resolve (script : list statement) (st : store) :
  exec_statements empty_store script = inr st ->
  (forall d k, In d (documents (store_tables st)) ->
     doc_source_id d = Some k -> In k (map source_id (sources st)))
  /\ (forall c k, In c (code_examples (store_tables st)) ->
        code_source_id c = Some k -> In k (map source_id (sources st)))
  /\ NoDup (map source_id (sources st))
  /\ NoDup (map doc_id (documents (store_tables st)))
  /\ NoDup (map code_row_id (code_examples (store_tables st))).
Proof.
  intros Hexec.
  destruct (exec_statements_consistent _ _ _ empty_store_consistent Hexec)
    as (Hsrc & [Hd1 _] & [Hc1 _] & Hdref & Hcref).
  rewrite Forall_forall in Hdref, Hcref.
  split; [|split; [|auto]].
  - intros d k Hd Hk. specialize (Hdref d Hd). rewrite Hk in Hdref.
    now apply has_source_in.
  - intros c k Hc Hk. specialize (Hcref c Hc). rewrite Hk in Hcref.
    now apply has_source_in.
Qed.

Lemma references_always_resolve_witness :
  (forall d k, In d (documents (store_tables sample_store)) ->
     doc_source_id d = Some k -> In k (map source_id (sources sample_store)))
  /\ (forall c k, In c (code_examples (store_tables sample_store)) ->
        code_source_id c = Some k ->
        In k (map source_id (sources sample_store)))
  /\ NoDup (map source_id (sources sample_store))
  /\ NoDup (map doc_id (documents (store_tables sample_store)))
  /\ NoDup (map code_row_id (code_examples (store_tables sample_store))).
Proof.
  apply (references_always_resolve sample_store_script sample_store).
  vm_compute. reflexivity.
Defined.

Example orphan_document_rejected :
  exec_statements empty_store
    [ InsertSource (sample_source 10);
      WriteDocument (Insert (document_of_source 1 12 vec_A)) ]
  = inl (ForeignKeyViolation "documents" 12).
Proof. vm_compute. reflexivity. Qed.

(** X14: deleting a source takes its documents out of search: after
    DELETE of source k, no hit of [search_similar_documents] is a
    document that referenced k, whatever the query, threshold and limit,
    while the documents of other sources are all still stored. *)
Theorem deleted_source_leaves_search
    (cosine_distance : vector -> vector -> Q) (script : list statement)
    (st st' : store) (k : uuid) (q : vector) (threshold : Q) (lim : Z)
    (hits : list document_match) :
  exec_statements empty_store script = inr st ->
  exec_statement st (DeleteSource k) = inr st' ->
  search_similar_documents cosine_distance (store_tables st') q
    threshold lim = Ok hits ->
  (forall h, In h hits ->
     exists d,
       In d (documents (store_tables st))
       /\ doc_source_id d <> Some k
       /\ document_id h = doc_id d)
  /\ (forall d, In d (documents (store_tables st)) ->
        doc_source_id d = Some k ->
        ~ In (doc_id d) (map document_id hits))
  /\ (forall d, In d (documents (store_tables st)) ->
        doc_source_id d <> Some k ->
        In d (documents (store_tables st'))).
Proof.
  intros Hexec Hdel Hs.
  destruct (exec_statements_consistent _ _ _ empty_store_consistent Hexec)
    as (_ & [Hnd _] & _).
  cbn in Hdel. injection Hdel as <-. cbn in *.
  assert (Hhit : forall h, In h hits ->
            exists d,
              In d (documents (store_tables st))
              /\ refers_to (doc_source_id d) k = false
              /\ document_id h = doc_id d).
  { intros h Hh.
    destruct (search_similar_documents_in _ _ _ _ _ _ _ Hs Hh)
      as (r & v & Hr & -> & _).
    cbn in Hr. apply filter_In in Hr. destruct Hr as [Hr Hne].
    exists r. split; [exact Hr|]. split; [|reflexivity].
    now apply Bool.negb_true_iff. }
  split; [|split].
  - intros h Hh. destruct (Hhit h Hh) as (d & Hd & Hne & Hid).
    exists d. split; [exact Hd|]. split; [|exact Hid].
    intros E. rewrite E in Hne. cbn in Hne.
    now rewrite N.eqb_refl in Hne.
  - intros d Hd Hk Hin. apply in_map_iff in Hin.
    destruct Hin as (h & Hid & Hh).
    destruct (Hhit h Hh) as (d' & Hd' & Hne & Hid').
    assert (d' = d).
    { eapply key_determines_row; eauto. congruence. }
    subst d'. rewrite Hk in Hne. cbn in Hne.
    now rewrite N.eqb_refl in Hne.
  - intros d Hd Hne. apply filter_In. split; [exact Hd|].
    apply Bool.negb_true_iff. destruct (doc_source_id d) as [k'|]; cbn;
      [|reflexivity].
    apply N.eqb_neq. congruence.
Qed.

Lemma deleted_source_leaves_search_witness :
  (forall h, In h [sample_match 2 (19 # 20)] ->
     exists d,
       In d (documents (store_tables sample_store))
       /\ doc_source_id d <> Some 10%N
       /\ document_id h = doc_id d)
  /\ (forall d, In d (documents (store_tables sample_store)) ->
        doc_source_id d = Some 10%N ->
        ~ In (doc_id d) (map document_id [sample_match 2 (19 # 20)]))
  /\ (forall d, In d (documents (store_tables sample_store)) ->
        doc_source_id d <> Some 10%N ->
        In d (documents (store_tables sample_store_after_delete))).
Proof.
  apply (deleted_source_leaves_search unit_cosine_distance
           sample_store_script sample_store sample_store_after_delete
           10%N query_768 (7 # 10) 10).
  - vm_compute. reflexivity.
  - vm_compute. reflexivity.
  - vm_compute. reflexivity.
Defined.

(** * Projects and tasks *)

Example sample_board_run :
  exec_board_statements empty_board sample_board_script = inr sample_board.
Proof. vm_compute. reflexivity. Qed.

Lemma has_task_in (ts : list task) (k : uuid) :
  has_task ts k = true <-> In k (map task_id ts).
Proof.
  unfold has_task. rewrite existsb_exists, in_map_iff.
  split; intros (t & H1 & H2).
  - apply N.eqb_eq in H2. eauto.
  - exists t. split; [exact H2|]. now apply N.eqb_eq.
Qed.

Lemma has_project_in (ps : list project) (k : uuid) :
  has_project ps k = true <-> In k (map project_id ps).
Proof.
  unfold has_project. rewrite existsb_exists, in_map_iff.
  split; intros (t & H1 & H2).
  - apply N.eqb_eq in H2. eauto.
  - exists t. split; [exact H2|]. now apply N.eqb_eq.
Qed.

Example sample_delete_project :
  exec_board_statements empty_board sample_board_inserts
  = inr sample_board_before
  /\ exec_board_statement sample_board_before (DeleteProject 1)
     = inr sample_board.
Proof. split; vm_compute; reflexivity. Qed.

(** A rewritten row is met after the rows that were not rewritten. *)
Example rewritten_task_scanned_last :
  exec_board_statement sample_family (DeleteTask 1)
  = inr {| projects := [sample_project 1];
           tasks := [ sample_task 3 (Some 1%N) None;
                      sample_task 2 (Some 1%N) None ] |}.
Proof. vm_compute. reflexivity. Qed.

Lemma refers_to_true (ref : option uuid) (k : uuid) :
  refers_to ref k = true <-> ref = Some k.
Proof.
  destruct ref as [k'|]; cbn; [|split; discriminate].
  rewrite N.eqb_eq. split; congruence.
Qed.

Lemma refers_to_false (ref : option uuid) (k : uuid) :
  refers_to ref k = false <-> ref <> Some k.
Proof.
  rewrite <- refers_to_true. destruct (refers_to ref k);
    split; congruence.
Qed.

Lemma has_task_filter (gone : task -> bool) (ts : list task) (q : uuid) :
  has_task (filter gone ts) q = true
  <-> exists g, In g ts /\ gone g = true /\ task_id g = q.
Proof.
  rewrite has_task_in, in_map_iff. split.
  - intros (g & Hq & Hin). apply filter_In in Hin. exists g. tauto.
  - intros (g & Hin & Hg & Hq). exists g. split; [exact Hq|].
    apply filter_In. auto.
Qed.

Lemma set_parent_task_id_same (t : task) :
  set_parent_task_id t (task_parent_task_id t) = t.
Proof. destruct t. reflexivity. Qed.

(** The rows after a delete: each row that stays, once, with its parent
    reference cleared when the parent is among the removed rows. *)
Lemma delete_tasks_in (gone : task -> bool) (ts : list task) (t' : task) :
  In t' (delete_tasks gone ts)
  <-> exists t,
        In t ts /\ gone t = false
        /\ t' = orphan (has_task (filter gone ts)) t.
Proof.
  unfold delete_tasks. rewrite in_app_iff, in_flat_map. split.
  - intros [Hin | (g & Hg & Hin)].
    + apply filter_In in Hin. destruct Hin as [Hin Hun].
      apply filter_In in Hin. destruct Hin as [Hin Hstay].
      apply Bool.negb_true_iff in Hstay, Hun.
      exists t'. split; [exact Hin|]. split; [exact Hstay|].
      unfold orphan. destruct (task_parent_task_id t') as [p|] eqn:E.
      * rewrite Hun, <- E. symmetry. apply set_parent_task_id_same.
      * rewrite <- E. symmetry. apply set_parent_task_id_same.
    + apply in_map_iff in Hin. destruct Hin as (t & <- & Hin).
      apply filter_In in Hin. destruct Hin as [Hin Href].
      apply filter_In in Hin. destruct Hin as [Hin Hstay].
      apply Bool.negb_true_iff in Hstay. apply refers_to_true in Href.
      apply filter_In in Hg.
      exists t. split; [exact Hin|]. split; [exact Hstay|].
      unfold orphan. rewrite Href, N.eqb_refl.
      replace (has_task (filter gone ts) (task_id g)) with true;
        [reflexivity|].
      symmetry. apply has_task_filter. exists g. tauto.
  - intros (t & Hin & Hstay & ->).
    assert (Hs : In t (filter (fun t => negb (gone t)) ts)).
    { apply filter_In. split; [exact Hin|]. now rewrite Hstay. }
    unfold orphan. destruct (task_parent_task_id t) as [p|] eqn:E.
    + destruct (has_task (filter gone ts) p) eqn:Hp.
      * right. apply has_task_filter in Hp.
        destruct Hp as (g & Hg & Hgone & <-).
        exists g. split; [apply filter_In; auto|].
        apply in_map_iff. exists t. split.
        -- unfold orphan. now rewrite E, N.eqb_refl.
        -- apply filter_In. split; [exact Hs|].
           now apply refers_to_true.
      * left. rewrite <- E, set_parent_task_id_same.
        apply filter_In. split; [exact Hs|]. now rewrite E, Hp.
    + left. rewrite <- E, set_parent_task_id_same.
      apply filter_In. split; [exact Hs|]. now rewrite E.
Qed.

Lemma filter_ids_nodup {A : Type} (f : A -> uuid) (p : A -> bool)
    (l : list A) :
  NoDup (map f l) -> NoDup (map f (filter p l)).
Proof.
  induction l as [|x l IH]; cbn; intros Hnd; [constructor|].
  inversion Hnd as [|? ? Hx Hl]; subst.
  destruct (p x); cbn; [|now apply IH].
  constructor; [|now apply IH].
  intros Hin. apply Hx. apply in_map_iff in Hin.
  destruct Hin as (y & Hy & Hin). apply filter_In in Hin.
  rewrite <- Hy. apply in_map. tauto.
Qed.

(** The children rewritten for distinct removed tasks are distinct
    rows. *)
Lemma rewritten_ids_nodup (stay removed : list task) :
  NoDup (map task_id stay) -> NoDup (map task_id removed) ->
  NoDup
    (map task_id
       (flat_map
          (fun g =>
             map (orphan (N.eqb (task_id g)))
               (filter
                  (fun t => refers_to (task_parent_task_id t) (task_id g))
                  stay))
          removed)).
Proof.
  intros Hstay. induction removed as [|g gs IH]; cbn [flat_map map];
    intros Hnd; [constructor|].
  inversion Hnd as [|? ? Hg Hgs]; subst.
  rewrite map_app. apply NoDup_app.
  - rewrite map_map. cbn. now apply filter_ids_nodup.
  - now apply IH.
  - intros a Ha Hb. apply Hg.
    rewrite map_map in Ha. cbn in Ha.
    apply in_map_iff in Ha. destruct Ha as (t1 & <- & H1).
    apply filter_In in H1. destruct H1 as [H1 R1].
    apply in_map_iff in Hb. destruct Hb as (t2' & E & H2).
    apply in_flat_map in H2. destruct H2 as (g' & Hg' & H2).
    apply in_map_iff in H2. destruct H2 as (t2 & <- & H2).
    apply filter_In in H2. destruct H2 as [H2 R2]. cbn in E.
    pose proof (key_determines_row task_id stay t2 t1 Hstay H2 H1 E)
      as ->.
    apply refers_to_true in R1, R2.
    assert (task_id g = task_id g') as -> by congruence.
    now apply in_map.
Qed.

Lemma delete_tasks_ids_nodup (gone : task -> bool) (ts : list task) :
  NoDup (map task_id ts) -> NoDup (map task_id (delete_tasks gone ts)).
Proof.
  intros Hnd. unfold delete_tasks. rewrite map_app. apply NoDup_app.
  - now do 2 apply filter_ids_nodup.
  - apply rewritten_ids_nodup; now apply filter_ids_nodup.
  - intros a Ha Hb.
    apply in_map_iff in Ha. destruct Ha as (t1 & <- & H1).
    apply filter_In in H1. destruct H1 as [H1 Hun].
    apply filter_In in H1. destruct H1 as [H1 _].
    apply in_map_iff in Hb. destruct Hb as (t2' & E & H2).
    apply in_flat_map in H2. destruct H2 as (g & Hg & H2).
    apply in_map_iff in H2. destruct H2 as (t2 & <- & H2).
    apply filter_In in H2. destruct H2 as [H2 R2].
    apply filter_In in H2. destruct H2 as [H2 _]. cbn in E.
    pose proof (key_determines_row task_id ts t2 t1 Hnd H2 H1 E) as ->.
    apply refers_to_true in R2. rewrite R2 in Hun.
    apply Bool.negb_true_iff in Hun.
    assert (has_task (filter gone ts) (task_id g) = true);
      [|congruence].
    apply has_task_in. now apply in_map.
Qed.

Lemma delete_tasks_consistent (gone : task -> bool) (ts : list task) :
  NoDup (map task_id ts) ->
  Forall (fun t => match task_parent_task_id t with
                   | Some q => has_task ts q = true
                   | None => True
                   end) ts ->
  NoDup (map task_id (delete_tasks gone ts))
  /\ Forall (fun t => match task_parent_task_id t with
                      | Some q => has_task (delete_tasks gone ts) q = true
                      | None => True
                      end) (delete_tasks gone ts).
Proof.
  intros Hnd Hpar. split; [now apply delete_tasks_ids_nodup|].
  rewrite Forall_forall in *. intros t' Ht'.
  apply delete_tasks_in in Ht'. destruct Ht' as (t & Ht & _ & ->).
  specialize (Hpar t Ht). cbn.
  destruct (task_parent_task_id t) as [q|]; [|exact I].
  destruct (has_task (filter gone ts) q) eqn:Hgone; [exact I|].
  apply has_task_in in Hpar. apply in_map_iff in Hpar.
  destruct Hpar as (x & Hx & Hin).
  apply has_task_in. apply in_map_iff.
  exists (orphan (has_task (filter gone ts)) x). split; [exact Hx|].
  apply delete_tasks_in. exists x. split; [exact Hin|].
  split; [|reflexivity].
  destruct (gone x) eqn:Gx; [|reflexivity]. exfalso.
  assert (has_task (filter gone ts) q = true); [|congruence].
  apply has_task_filter. exists x. auto.
Qed.

(** What a delete leaves, row by row: a row that is not removed stays
    with its fields; its parent reference is NULL when the parent was
    removed and is what it was otherwise. *)
Lemma delete_tasks_rows (gone : task -> bool) (ts : list task) (t' : task) :
  In t' (delete_tasks gone ts)
  <-> exists t,
        In t ts /\ gone t = false
        /\ t' = set_parent_task_id t (task_parent_task_id t')
        /\ ((exists g, In g ts /\ gone g = true
                       /\ task_parent_task_id t = Some (task_id g)) ->
            task_parent_task_id t' = None)
        /\ ((forall g, In g ts -> gone g = true ->
                       task_parent_task_id t <> Some (task_id g)) ->
            task_parent_task_id t' = task_parent_task_id t).
Proof.
  rewrite delete_tasks_in. split.
  - intros (t & Hin & Hstay & ->). exists t.
    split; [exact Hin|]. split; [exact Hstay|]. split; [reflexivity|].
    cbn. split.
    + intros (g & Hg & Hgone & ->).
      replace (has_task (filter gone ts) (task_id g)) with true;
        [reflexivity|].
      symmetry. apply has_task_filter. exists g. auto.
    + intros Hno. destruct (task_parent_task_id t) as [q|]; [|reflexivity].
      destruct (has_task (filter gone ts) q) eqn:Hq; [|reflexivity].
      apply has_task_filter in Hq. destruct Hq as (g & Hg & Hgone & <-).
      now destruct (Hno g Hg Hgone).
  - intros (t & Hin & Hstay & Hfields & Hnull & Hkeep). exists t.
    split; [exact Hin|]. split; [exact Hstay|].
    rewrite Hfields. unfold orphan. f_equal.
    destruct (task_parent_task_id t) as [q|] eqn:E.
    + destruct (has_task (filter gone ts) q) eqn:Hq.
      * apply Hnull. apply has_task_filter in Hq.
        destruct Hq as (g & Hg & Hgone & <-). eauto.
      * apply Hkeep. intros g Hg Hgone Eg.
        assert (has_task (filter gone ts) q = true); [|congruence].
        apply has_task_filter. exists g. split; [exact Hg|].
        split; [exact Hgone|congruence].
    + apply Hkeep. intros g _ _. discriminate.
Qed.

Lemma exec_board_statement_consistent (b b' : board) (s : board_statement) :
  board_consistent b -> exec_board_statement b s = inr b' ->
  board_consistent b'.
Proof.
  intros (Hp & Ht & Hproj & Hpar) Hexec.
  destruct s as [p|k|t|k]; cbn in Hexec.
  - destruct (has_project (projects b) (project_id p)) eqn:Hk;
      [discriminate|].
    injection Hexec as <-. unfold board_consistent. cbn.
    split; [|split; [exact Ht|split; [|exact Hpar]]].
    + rewrite map_app. cbn.
      apply Permutation_NoDup
        with (l := project_id p :: map project_id (projects b)).
      * apply Permutation_cons_append.
      * constructor; [|exact Hp].
        intros Hin. apply has_project_in in Hin. congruence.
    + eapply Forall_impl; [|exact Hproj]. intros x.
      cbn beta. destruct (task_project_id x); [|auto].
      unfold has_project. rewrite existsb_app. intros ->. reflexivity.
  - injection Hexec as <-. unfold board_consistent. cbn.
    destruct (delete_tasks_consistent
                (fun t => refers_to (task_project_id t) k) (tasks b) Ht Hpar)
      as [Hnd' Hpar'].
    split; [now apply filter_ids_nodup|].
    split; [exact Hnd'|]. split; [|exact Hpar'].
    rewrite Forall_forall in *. intros t' Ht'.
    apply delete_tasks_in in Ht'. destruct Ht' as (t & Hin & Hne & ->).
    specialize (Hproj t Hin). cbn.
    destruct (task_project_id t) as [q|]; [|exact I].
    cbn in Hne.
    apply has_project_in in Hproj. apply has_project_in.
    apply in_map_iff in Hproj. destruct Hproj as (x & Hx & Hxin).
    apply in_map_iff. exists x. split; [exact Hx|].
    apply filter_In. split; [exact Hxin|]. now rewrite Hx, Hne.
  - destruct (has_task (tasks b) (task_id t)) eqn:Hk; [discriminate|].
    assert (Hparent :
              (match task_parent_task_id t with
               | Some q =>
                   if has_task (tasks b ++ [t]) q
                   then inr {| projects := projects b;
                               tasks := tasks b ++ [t] |}
                   else inl (ForeignKeyViolation "tasks" q)
               | None => inr {| projects := projects b;
                                tasks := tasks b ++ [t] |}
               end = inr b') ->
              match task_project_id t with
              | Some p => has_project (projects b) p = true
              | None => True
              end ->
              board_consistent b').
    { intros Hc Hprj.
      assert (Hb' : b' = {| projects := projects b; tasks := tasks b ++ [t] |}
                    /\ match task_parent_task_id t with
                       | Some q => has_task (tasks b ++ [t]) q = true
                       | None => True
                       end).
      { destruct (task_parent_task_id t) as [q|].
        - destruct (has_task (tasks b ++ [t]) q); [|discriminate].
          split; [congruence|reflexivity].
        - split; [congruence|exact I]. }
      destruct Hb' as [-> Hq]. unfold board_consistent. cbn.
      split; [exact Hp|]. split; [|split].
      - rewrite map_app. cbn.
        apply Permutation_NoDup with (l := task_id t :: map task_id (tasks b)).
        + apply Permutation_cons_append.
        + constructor; [|exact Ht].
          intros Hin. apply has_task_in in Hin. congruence.
      - apply Forall_app. split; [exact Hproj|]. now constructor.
      - apply Forall_app. split; [|now constructor].
        eapply Forall_impl; [|exact Hpar]. intros x.
        cbn beta. destruct (task_parent_task_id x); [|auto].
        unfold has_task. rewrite existsb_app. intros ->. reflexivity. }
    destruct (task_project_id t) as [p|].
    + destruct (has_project (projects b) p) eqn:Hprj; [|discriminate].
      now apply Hparent.
    + now apply Hparent.
  - injection Hexec as <-. unfold board_consistent. cbn.
    destruct (delete_tasks_consistent
                (fun t => N.eqb (task_id t) k) (tasks b) Ht Hpar)
      as [Hnd' Hpar'].
    split; [exact Hp|]. split; [exact Hnd'|]. split; [|exact Hpar'].
    rewrite Forall_forall in *. intros t' Ht'.
    apply delete_tasks_in in Ht'. destruct Ht' as (t & Hin & _ & ->).
    exact (Hproj t Hin).
Qed.

Lemma exec_board_statements_consistent (script : list board_statement) :
  forall b b',
    board_consistent b -> exec_board_statements b script = inr b' ->
    board_consistent b'.
Proof.
  induction script as [|s script IH]; cbn; intros b b' Hc Hexec.
  - now injection Hexec as <-.
  - destruct (exec_board_statement b s) as [e|b1] eqn:Hs; [discriminate|].
    eapply IH; [|exact Hexec]. eapply exec_board_statement_consistent; eauto.
Qed.

(** X15: whatever statements have run on projects and tasks, every
    [project_id] of a stored task is NULL or the id of a stored project,
    every [parent_task_id] is NULL or the id of a stored task, and ids
    are pairwise distinct.  On such a board, deleting a project
    (ON DELETE CASCADE) always succeeds and leaves the other projects
    and exactly the tasks that were not of that project, each with the
    fields it had; deleting a task always succeeds, leaves the projects
    as they are and exactly the other tasks, each with the fields it
    had.  In both cases (ON DELETE SET NULL) the parent reference of a
    task that stays is NULL when its parent was removed and is what it
    was otherwise. *)
Theorem task_references_always_resolve (script : list board_statement)
    (b : board) :
  exec_board_statements empty_board script = inr b ->
  (forall t p, In t (tasks b) -> task_project_id t = Some p ->
     In p (map project_id (projects b)))
  /\ (forall t q, In t (tasks b) -> task_parent_task_id t = Some q ->
        In q (map task_id (tasks b)))
  /\ NoDup (map project_id (projects b))
  /\ NoDup (map task_id (tasks b))
  /\ (forall k, exists b',
        exec_board_statement b (DeleteProject k) = inr b'
        /\ (forall p, In p (projects b')
                      <-> In p (projects b) /\ project_id p <> k)
        /\ (forall t',
              In t' (tasks b')
              <-> exists t,
                    In t (tasks b) /\ task_project_id t <> Some k
                    /\ t' = set_parent_task_id t (task_parent_task_id t')
                    /\ ((exists g, In g (tasks b)
                                   /\ task_project_id g = Some k
                                   /\ task_parent_task_id t
                                      = Some (task_id g)) ->
                        task_parent_task_id t' = None)
                    /\ ((forall g, In g (tasks b) ->
                                   task_project_id g = Some k ->
                                   task_parent_task_id t
                                   <> Some (task_id g)) ->
                        task_parent_task_id t' = task_parent_task_id t)))
  /\ (forall k, exists b',
        exec_board_statement b (DeleteTask k) = inr b'
        /\ projects b' = projects b
        /\ (forall t',
              In t' (tasks b')
              <-> exists t,
                    In t (tasks b) /\ task_id t <> k
                    /\ t' = set_parent_task_id t (task_parent_task_id t')
                    /\ (task_parent_task_id t = Some k ->
                        task_parent_task_id t' = None)
                    /\ (task_parent_task_id t <> Some k ->
                        task_parent_task_id t' = task_parent_task_id t))).
Proof.
  intros Hexec.
  assert (H0 : board_consistent empty_board).
  { unfold board_consistent. cbn. repeat split; constructor. }
  destruct (exec_board_statements_consistent _ _ _ H0 Hexec)
    as (Hp & Ht & Hproj & Hpar).
  rewrite Forall_forall in Hproj, Hpar.
  assert (Hres : forall t q, In t (tasks b) ->
                   task_parent_task_id t = Some q ->
                   In q (map task_id (tasks b))).
  { intros t q Hin E. specialize (Hpar t Hin). rewrite E in Hpar.
    now apply has_task_in. }
  split; [|split; [exact Hres|split; [exact Hp|split; [exact Ht|split]]]].
  - intros t p Hin E. specialize (Hproj t Hin). rewrite E in Hproj.
    now apply has_project_in.
  - intros k. eexists. split; [reflexivity|]. cbn [projects tasks]. split.
    + intros p. rewrite filter_In, Bool.negb_true_iff, N.eqb_neq.
      reflexivity.
    + intros t'. rewrite delete_tasks_rows. split.
      * intros (t & Hin & Hstay & Hf & Hnull & Hkeep). exists t.
        apply refers_to_false in Hstay.
        split; [exact Hin|]. split; [exact Hstay|]. split; [exact Hf|].
        split.
        -- intros (g & Hg & Hgk & Eg). apply Hnull. exists g.
           split; [exact Hg|]. split; [|exact Eg].
           now apply refers_to_true.
        -- intros Hno. apply Hkeep. intros g Hg Hgk.
           apply Hno; [exact Hg|]. now apply refers_to_true.
      * intros (t & Hin & Hstay & Hf & Hnull & Hkeep). exists t.
        apply refers_to_false in Hstay.
        split; [exact Hin|]. split; [exact Hstay|]. split; [exact Hf|].
        split.
        -- intros (g & Hg & Hgk & Eg). apply Hnull. exists g.
           split; [exact Hg|]. split; [|exact Eg].
           now apply refers_to_true.
        -- intros Hno. apply Hkeep. intros g Hg Hgk.
           apply Hno; [exact Hg|]. now apply refers_to_true.
  - intros k. eexists. split; [reflexivity|]. cbn [projects tasks].
    split; [reflexivity|].
    intros t'. rewrite delete_tasks_rows. split.
    + intros (t & Hin & Hstay & Hf & Hnull & Hkeep). exists t.
      apply N.eqb_neq in Hstay.
      split; [exact Hin|]. split; [exact Hstay|]. split; [exact Hf|].
      split.
      * intros E. apply Hnull.
        pose proof (Hres t k Hin E) as Hk. apply in_map_iff in Hk.
        destruct Hk as (g & Eg & Hg). exists g.
        split; [exact Hg|]. split; [now apply N.eqb_eq|congruence].
      * intros Hne. apply Hkeep. intros g _ Hgk.
        apply N.eqb_eq in Hgk. congruence.
    + intros (t & Hin & Hstay & Hf & Hnull & Hkeep). exists t.
      apply N.eqb_neq in Hstay.
      split; [exact Hin|]. split; [exact Hstay|]. split; [exact Hf|].
      split.
      * intros (g & _ & Hgk & Eg). apply Hnull.
        apply N.eqb_eq in Hgk. congruence.
      * intros Hno. apply Hkeep. intros E.
        pose proof (Hres t k Hin E) as Hk. apply in_map_iff in Hk.
        destruct Hk as (g & Eg & Hg).
        apply (Hno g Hg); [now apply N.eqb_eq|congruence].
Qed.

Lemma task_references_always_resolve_witness :
  (forall t p, In t (tasks sample_board_before) ->
     task_project_id t = Some p ->
     In p (map project_id (projects sample_board_before)))
  /\ (forall t q, In t (tasks sample_board_before) ->
        task_parent_task_id t = Some q ->
        In q (map task_id (tasks sample_board_before)))
  /\ NoDup (map project_id (projects sample_board_before))
  /\ NoDup (map task_id (tasks sample_board_before))
  /\ (forall k, exists b',
        exec_board_statement sample_board_before (DeleteProject k) = inr b'
        /\ (forall p, In p (projects b')
                      <-> In p (projects sample_board_before)
                          /\ project_id p <> k)
        /\ (forall t',
              In t' (tasks b')
              <-> exists t,
                    In t (tasks sample_board_before)
                    /\ task_project_id t <> Some k
                    /\ t' = set_parent_task_id t (task_parent_task_id t')
                    /\ ((exists g, In g (tasks sample_board_before)
                                   /\ task_project_id g = Some k
                                   /\ task_parent_task_id t
                                      = Some (task_id g)) ->
                        task_parent_task_id t' = None)
                    /\ ((forall g, In g (tasks sample_board_before) ->
                                   task_project_id g = Some k ->
                                   task_parent_task_id t
                                   <> Some (task_id g)) ->
                        task_parent_task_id t' = task_parent_task_id t)))
  /\ (forall k, exists b',
        exec_board_statement sample_board_before (DeleteTask k) = inr b'
        /\ projects b' = projects sample_board_before
        /\ (forall t',
              In t' (tasks b')
              <-> exists t,
                    In t (tasks sample_board_before) /\ task_id t <> k
                    /\ t' = set_parent_task_id t (task_parent_task_id t')
                    /\ (task_parent_task_id t = Some k ->
                        task_parent_task_id t' = None)
                    /\ (task_parent_task_id t <> Some k ->
                        task_parent_task_id t' = task_parent_task_id t))).
Proof.
  apply (task_references_always_resolve sample_board_inserts
           sample_board_before).
  vm_compute. reflexivity.
Defined.

(** * The migration to multi-dimensional columns *)

Lemma has_column_type (cols : list column) (name : string) :
  has_column cols name = true <-> column_type_of cols name <> None.
Proof.
  induction cols as [|c cols IH]; cbn; [split; [discriminate|congruence]|].
  destruct (String.eqb (column_name c) name); cbn; [|exact IH].
  split; [discriminate|reflexivity].
Qed.

Lemma column_type_of_app (cols : list column) (c : column) (name : string) :
  column_type_of (cols ++ [c]) name
  = match column_type_of cols name with
    | Some ty => Some ty
    | None => if String.eqb (column_name c) name then Some (column_type c)
              else None
    end.
Proof.
  induction cols as [|x cols IH]; cbn; [reflexivity|].
  now destruct (String.eqb (column_name x) name).
Qed.

Lemma add_columns_prefix (new : list column) :
  forall cols,
    exists added, fold_left add_column_if_not_exists new cols = cols ++ added.
Proof.
  induction new as [|c new IH]; cbn; intros cols.
  - exists []. now rewrite app_nil_r.
  - unfold add_column_if_not_exists at 2.
    destruct (has_column cols (column_name c)); [apply IH|].
    destruct (IH (cols ++ [c])) as [added ->].
    exists (c :: added). now rewrite <- app_assoc.
Qed.

Lemma add_columns_types (new : list column) :
  forall cols name,
    column_type_of (fold_left add_column_if_not_exists new cols) name
    = match column_type_of cols name with
      | Some ty => Some ty
      | None => column_type_of new name
      end.
Proof.
  induction new as [|c new IH]; cbn [fold_left column_type_of];
    intros cols name.
  - now destruct (column_type_of cols name).
  - rewrite IH. unfold add_column_if_not_exists.
    destruct (has_column cols (column_name c)) eqn:Hc.
    + destruct (column_type_of cols name) eqn:Hn; [reflexivity|].
      destruct (String.eqb_spec (column_name c) name) as [E|E];
        [|reflexivity].
      apply has_column_type in Hc. congruence.
    + rewrite column_type_of_app.
      destruct (column_type_of cols name); [reflexivity|].
      now destruct (String.eqb (column_name c) name).
Qed.

Lemma add_columns_present (new : list column) :
  forall cols,
    (forall c, In c new -> has_column cols (column_name c) = true) ->
    fold_left add_column_if_not_exists new cols = cols.
Proof.
  induction new as [|c new IH]; cbn; intros cols Hall; [reflexivity|].
  unfold add_column_if_not_exists at 2.
  rewrite (Hall c (or_introl eq_refl)). apply IH.
  intros c' Hc'. apply Hall. now right.
Qed.

Lemma add_columns_idempotent (new cols : list column) :
  fold_left add_column_if_not_exists new
    (fold_left add_column_if_not_exists new cols)
  = fold_left add_column_if_not_exists new cols.
Proof.
  apply add_columns_present. intros c Hc.
  apply has_column_type. rewrite add_columns_types.
  destruct (column_type_of cols (column_name c)); [discriminate|].
  clear cols. induction new as [|x new IH]; cbn; [contradiction|].
  destruct Hc as [->|Hc].
  - now rewrite String.eqb_refl.
  - destruct (String.eqb (column_name x) (column_name c)); [discriminate|].
    now apply IH.
Qed.

Lemma alter_table_cases (cat : catalog) (table : string)
    (new : list column) :
  alter_table cat table new
  = match table_columns cat table with
    | Some _ => inr (alter_columns cat table new)
    | None => inl (UndefinedTable table)
    end.
Proof.
  induction cat as [|[name cols] rest IH]; cbn; [reflexivity|].
  destruct (String.eqb name table); [reflexivity|].
  rewrite IH. now destruct (table_columns rest table).
Qed.

Lemma table_columns_alter (cat : catalog) (table : string)
    (new : list column) (t : string) :
  table_columns (alter_columns cat table new) t
  = if String.eqb t table
    then option_map (fold_left add_column_if_not_exists new)
           (table_columns cat t)
    else table_columns cat t.
Proof.
  induction cat as [|[name cols] rest IH]; cbn.
  - now destruct (String.eqb t table).
  - destruct (String.eqb_spec name table) as [->|Hne]; cbn.
    + destruct (String.eqb_spec table t) as [->|Hne'].
      * now rewrite String.eqb_refl.
      * destruct (String.eqb_spec t table); [congruence|reflexivity].
    + destruct (String.eqb_spec name t) as [->|Hne'].
      * destruct (String.eqb_spec t table); [congruence|reflexivity].
      * exact IH.
Qed.

Lemma alter_columns_names (cat : catalog) (table : string)
    (new : list column) :
  map fst (alter_columns cat table new) = map fst cat.
Proof.
  induction cat as [|[name cols] rest IH]; cbn; [reflexivity|].
  destruct (String.eqb name table); cbn; [reflexivity|]. now rewrite IH.
Qed.

Lemma alter_columns_idempotent (cat : catalog) (table : string)
    (new : list column) :
  alter_columns (alter_columns cat table new) table new
  = alter_columns cat table new.
Proof.
  induction cat as [|[name cols] rest IH]; cbn; [reflexivity|].
  destruct (String.eqb name table) eqn:E; cbn; rewrite E.
  - now rewrite add_columns_idempotent.
  - now rewrite IH.
Qed.

Lemma alter_columns_comm (cat : catalog) (t1 t2 : string)
    (n1 n2 : list column) :
  t1 <> t2 ->
  alter_columns (alter_columns cat t1 n1) t2 n2
  = alter_columns (alter_columns cat t2 n2) t1 n1.
Proof.
  intros Hne. induction cat as [|[name cols] rest IH]; cbn; [reflexivity|].
  destruct (String.eqb name t1) eqn:E1; destruct (String.eqb name t2) eqn:E2;
    cbn; rewrite ?E1, ?E2; try reflexivity.
  - apply String.eqb_eq in E1, E2. congruence.
  - now rewrite IH.
Qed.

Lemma add_multi_dimensional_vectors_cases (cat : catalog) :
  add_multi_dimensional_vectors cat
  = match table_columns cat "archon_crawled_pages",
          table_columns cat "archon_code_examples" with
    | None, _ => inl (UndefinedTable "archon_crawled_pages")
    | Some _, None => inl (UndefinedTable "archon_code_examples")
    | Some _, Some _ =>
        inr (alter_columns
               (alter_columns cat "archon_crawled_pages"
                  multi_dimensional_columns)
               "archon_code_examples" multi_dimensional_columns)
    end.
Proof.
  unfold add_multi_dimensional_vectors.
  rewrite alter_table_cases.
  destruct (table_columns cat "archon_crawled_pages"); [|reflexivity].
  rewrite alter_table_cases, table_columns_alter. cbn.
  now destruct (table_columns cat "archon_code_examples").
Qed.

(** X16: when the migration's ALTER TABLE statements succeed, the catalog
    has the same tables; every column a table had is still there, in
    place and with its type, the new columns coming after; on the two
    altered tables each of the six column names exists afterwards, with
    the declared type if the migration added it and with the type it
    already had if it did not: an existing [embedding_768] of another
    width is left as it is. *)
Theorem migration_keeps_existing_columns (cat cat' : catalog) :
  add_multi_dimensional_vectors cat = inr cat' ->
  map fst cat' = map fst cat
  /\ (forall table cols,
        table_columns cat table = Some cols ->
        exists added, table_columns cat' table = Some (cols ++ added))
  /\ (forall table cols cols' c,
        table = "archon_crawled_pages" \/ table = "archon_code_examples" ->
        table_columns cat table = Some cols ->
        table_columns cat' table = Some cols' ->
        In c multi_dimensional_columns ->
        column_type_of cols' (column_name c)
        = match column_type_of cols (column_name c) with
          | Some ty => Some ty
          | None => Some (column_type c)
          end).
Proof.
  rewrite add_multi_dimensional_vectors_cases.
  destruct (table_columns cat "archon_crawled_pages") eqn:H1; [|discriminate].
  destruct (table_columns cat "archon_code_examples") eqn:H2; [|discriminate].
  intros [= <-].
  assert (Hcols : forall table,
            table_columns
              (alter_columns
                 (alter_columns cat "archon_crawled_pages"
                    multi_dimensional_columns)
                 "archon_code_examples" multi_dimensional_columns) table
            = if String.eqb table "archon_code_examples"
                 || String.eqb table "archon_crawled_pages"
              then option_map
                     (fold_left add_column_if_not_exists
                        multi_dimensional_columns)
                     (table_columns cat table)
              else table_columns cat table).
  { intros table. rewrite !table_columns_alter.
    destruct (String.eqb_spec table "archon_code_examples") as [->|]; cbn;
      [reflexivity|].
    now destruct (String.eqb table "archon_crawled_pages"). }
  split; [|split].
  - now rewrite !alter_columns_names.
  - intros table cols Ht. rewrite Hcols, Ht.
    destruct (String.eqb table "archon_code_examples"
              || String.eqb table "archon_crawled_pages"); cbn [option_map].
    + destruct (add_columns_prefix multi_dimensional_columns cols)
        as [added ->]. eauto.
    + exists []. now rewrite app_nil_r.
  - intros table cols cols' c Htable Ht Ht' Hc.
    rewrite Hcols, Ht in Ht'.
    replace (String.eqb table "archon_code_examples"
             || String.eqb table "archon_crawled_pages") with true in Ht'
      by (destruct Htable as [-> | ->]; reflexivity).
    cbn [option_map] in Ht'.
    assert (Hc' : cols' = fold_left add_column_if_not_exists
                            multi_dimensional_columns cols) by congruence.
    rewrite Hc', add_columns_types.
    destruct (column_type_of cols (column_name c)); [reflexivity|].
    cbn in Hc.
    destruct Hc as [<-|[<-|[<-|[<-|[<-|[<-|[]]]]]]]; reflexivity.
Qed.

Lemma migration_keeps_existing_columns_witness :
  map fst sample_catalog_migrated = map fst sample_catalog
  /\ (forall table cols,
        table_columns sample_catalog table = Some cols ->
        exists added,
          table_columns sample_catalog_migrated table = Some (cols ++ added))
  /\ (forall table cols cols' c,
        table = "archon_crawled_pages" \/ table = "archon_code_examples" ->
        table_columns sample_catalog table = Some cols ->
        table_columns sample_catalog_migrated table = Some cols' ->
        In c multi_dimensional_columns ->
        column_type_of cols' (column_name c)
        = match column_type_of cols (column_name c) with
          | Some ty => Some ty
          | None => Some (column_type c)
          end).
Proof.
  apply (migration_keeps_existing_columns sample_catalog
           sample_catalog_migrated).
  vm_compute. reflexivity.
Defined.

Example existing_column_keeps_its_width :
  option_map (fun cols => column_type_of cols "embedding_768")
    (table_columns sample_catalog_migrated "archon_crawled_pages")
  = Some (Some (TyVector 1536)).
Proof. vm_compute. reflexivity. Qed.

(** X17: the migration's ALTER TABLE statements need both tables, and
    fail on the first that is missing; when they succeed, running them
    again succeeds and changes nothing. *)
Theorem migration_idempotent_and_needs_tables (cat : catalog) :
  (table_columns cat "archon_crawled_pages" = None ->
   add_multi_dimensional_vectors cat
   = inl (UndefinedTable "archon_crawled_pages"))
  /\ (table_columns cat "archon_crawled_pages" <> None ->
      table_columns cat "archon_code_examples" = None ->
      add_multi_dimensional_vectors cat
      = inl (UndefinedTable "archon_code_examples"))
  /\ (table_columns cat "archon_crawled_pages" <> None ->
      table_columns cat "archon_code_examples" <> None ->
      exists cat', add_multi_dimensional_vectors cat = inr cat')
  /\ (forall cat',
        add_multi_dimensional_vectors cat = inr cat' ->
        add_multi_dimensional_vectors cat' = inr cat').
Proof.
  rewrite add_multi_dimensional_vectors_cases.
  split; [|split; [|split]].
  - now intros ->.
  - intros H1 H2. rewrite H2.
    now destruct (table_columns cat "archon_crawled_pages").
  - intros H1 H2.
    destruct (table_columns cat "archon_crawled_pages"); [|congruence].
    destruct (table_columns cat "archon_code_examples"); [|congruence].
    eauto.
  - intros cat'.
    destruct (table_columns cat "archon_crawled_pages") eqn:H1;
      [|discriminate].
    destruct (table_columns cat "archon_code_examples") eqn:H2;
      [|discriminate].
    intros [= <-].
    rewrite add_multi_dimensional_vectors_cases, !table_columns_alter.
    cbn. rewrite H1, H2. cbn. f_equal.
    rewrite (alter_columns_comm _ "archon_code_examples"
               "archon_crawled_pages") by discriminate.
    now rewrite !alter_columns_idempotent.
Qed.

Lemma migration_idempotent_and_needs_tables_witness :
  add_multi_dimensional_vectors sample_catalog_migrated
  = inr sample_catalog_migrated.
Proof.
  apply (proj2 (proj2 (proj2
           (migration_idempotent_and_needs_tables sample_catalog)))).
  vm_compute. reflexivity.
Defined.

(** * The Ollama configuration panel *)

Lemma set_primary_filter (instanceId : string) (l : list Ollama.instance) :
  filter Ollama.isPrimary
    (map (fun inst =>
            Ollama.with_isPrimary inst
              (String.eqb (Ollama.id inst) instanceId)) l)
  = map (fun inst => Ollama.with_isPrimary inst true)
      (filter (fun inst => String.eqb (Ollama.id inst) instanceId) l).
Proof.
  induction l as [|x l IH]; cbn; [reflexivity|].
  destruct (String.eqb (Ollama.id x) instanceId) eqn:E; cbn; now rewrite IH.
Qed.

Lemma filter_by_id_length (instanceId : string) (l : list Ollama.instance) :
  NoDup (map Ollama.id l) ->
  List.length (filter (fun inst => String.eqb (Ollama.id inst) instanceId) l)
  = if existsb (fun inst => String.eqb (Ollama.id inst) instanceId) l
    then 1%nat else 0%nat.
Proof.
  induction l as [|x l IH]; cbn; intros Hnd; [reflexivity|].
  inversion Hnd as [|? ? Hx Hl]; subst.
  destruct (String.eqb_spec (Ollama.id x) instanceId) as [E|E]; cbn.
  - rewrite IH by assumption.
    destruct (existsb _ l) eqn:Hex; [|reflexivity].
    exfalso. apply Hx. apply existsb_exists in Hex.
    destruct Hex as (y & Hy & Hid). apply String.eqb_eq in Hid.
    rewrite E, <- Hid. now apply in_map.
  - now apply IH.
Qed.

(** X18: [handleSetPrimary], when the database accepts the save, changes
    nothing but the [isPrimary] flags: afterwards an instance is primary
    exactly when its id is the given one, so with distinct ids there is
    one primary instance if the id is configured and none at all if it is
    not; when the database rejects the save the instances and the local
    backup stay as they were and one error toast is shown. *)
Theorem set_primary_marks_exactly_the_given_id
    (storage_accepts : bool) (instanceId : string) (p : Ollama.panel) :
  let saved := Ollama.handleSetPrimary true storage_accepts instanceId p in
  let failed := Ollama.handleSetPrimary false storage_accepts instanceId p in
  map (fun inst => Ollama.with_isPrimary inst false) (Ollama.instances saved)
  = map (fun inst => Ollama.with_isPrimary inst false) (Ollama.instances p)
  /\ (forall inst, In inst (Ollama.instances saved) ->
        (Ollama.isPrimary inst = true <-> Ollama.id inst = instanceId))
  /\ (NoDup (map Ollama.id (Ollama.instances p)) ->
      List.length (filter Ollama.isPrimary (Ollama.instances saved))
      = if existsb (fun inst => String.eqb (Ollama.id inst) instanceId)
             (Ollama.instances p)
        then 1%nat else 0%nat)
  /\ Ollama.instances failed = Ollama.instances p
  /\ Ollama.local_backup failed = Ollama.local_backup p
  /\ Ollama.toasts failed
     = Ollama.toasts p
       ++ [("Failed to save Ollama configuration to database", "error")].
Proof.
  cbn. split; [|split; [|split; [|auto]]].
  - rewrite map_map. reflexivity.
  - intros inst Hin. apply in_map_iff in Hin.
    destruct Hin as (x & <- & _). cbn. apply String.eqb_eq.
  - intros Hnd. rewrite set_primary_filter, length_map.
    now apply filter_by_id_length.
Qed.

Lemma set_primary_marks_exactly_the_given_id_witness :
  List.length
    (filter Ollama.isPrimary
       (Ollama.instances
          (Ollama.handleSetPrimary true true "instance-2"
             Ollama.sample_panel)))
  = 1%nat.
Proof.
  apply (proj1 (proj2 (proj2 (set_primary_marks_exactly_the_given_id
                                true "instance-2" Ollama.sample_panel)))).
  vm_compute. repeat constructor; simpl; intuition discriminate.
Defined.
